(** * AI anomaly detection service: the security monitor and the metrics detector

    A shallow embedding of [ai-anomaly-detection/security_monitor.py] and of
    the model-handling routes of [ai-anomaly-detection/main.py], with the
    properties of the design document stated and proved over it.

    Conventions of the embedding:
    - Python [float] risk scores are binary64 values ([PrimFloat.float]); every
      [+], [<], [min] below is the IEEE operation the interpreter performs.
    - [time.time()] is an input of each call.  Timestamps are exact rationals
      ([Q], seconds): the window code only compares them and subtracts 60.
    - Python [int]s that count things are [nat]; status codes are [Z].
    - [str] is [string]; [len] counts characters and [lower] folds the ASCII
      letters (text outside ASCII is kept as it is).
    - the scikit-learn estimators are an interface ([IsolationForestImpl],
      [StandardScalerImpl]): the objects are opaque, a method returns a value
      or raises, and a fitting method also returns the object it leaves behind.
    - [logger] calls write to the log only and are left out. *)

From Stdlib Require Import QArith Lqa ZArith Ascii String Floats Sorting.Sorted.
From stdpp Require Import gmap strings list fin_maps.

Set Warnings "-inexact-float".
Local Open Scope string_scope.
Local Open Scope list_scope.

(** ** Python values shared by both modules *)

(** A Python number as it is put in a feature row before [np.array]
    turns the row into float64. *)
Inductive Num : Type :=
| PyInt (z : Z)
| PyFloat (f : float).

Definition Row : Type := list Num.

(** The outcome of a call that may raise: the value, or [str(e)]. *)
Inductive Exc (A : Type) : Type :=
| Ok (a : A)
| Raise (e : string).
Arguments Ok {A} a.
Arguments Raise {A} e.

(** [float(n)] for a Python [int]: the nearest binary64 value, ties to even.
    (Python raises [OverflowError] where this gives an infinity, from
    2^1024 - 2^970 on; a count of that size does not get past the scaler's own
    conversion of the row.) *)
Definition py_float_of_int (n : Z) : float :=
  SF2Prim (binary_normalize prec emax n 0 false).

(** [sklearn.ensemble.IsolationForest]: the estimator object with the three
    methods the service calls.  [forest_fit] returns the object after the
    call together with the outcome; [decision_function] and [predict] are
    given one row and return the entry [[0]] of the result. *)
Class IsolationForestImpl : Type := {
  Forest : Type;
  IsolationForest : float -> Z -> Forest;
  forest_fit : Forest -> list Row -> Forest * Exc unit;
  decision_function : Forest -> Row -> Exc float;
  predict : Forest -> Row -> Exc Z
}.

(** [sklearn.preprocessing.StandardScaler]. *)
Class StandardScalerImpl : Type := {
  Scaler : Type;
  StandardScaler : Scaler;
  fit_transform : Scaler -> list Row -> Scaler * Exc (list Row);
  transform : Scaler -> Row -> Exc Row
}.

(** ** Strings *)

Definition ascii_lower (c : ascii) : ascii :=
  let n := nat_of_ascii c in
  if (65 <=? n)%nat && (n <=? 90)%nat then ascii_of_nat (n + 32) else c.

(** [s.lower()] *)
Fixpoint lower (s : string) : string :=
  match s with
  | EmptyString => EmptyString
  | String c s' => String (ascii_lower c) (lower s')
  end.

(** [needle in hay] *)
Fixpoint contains (needle hay : string) : bool :=
  String.prefix needle hay ||
  match hay with
  | EmptyString => false
  | String _ hay' => contains needle hay'
  end.

(** [for x in xs: if p(x): ...; break]: the first element that passes. *)
Fixpoint first_match {A : Type} (p : A -> bool) (xs : list A) : option A :=
  match xs with
  | [] => None
  | x :: xs' => if p x then Some x else first_match p xs'
  end.

(** ** security_monitor.py *)

(** A threat string, kept as the template that built it and its arguments. *)
Inductive Threat : Type :=
| SuspiciousUserAgent (suspicious_ua : string)
| HighRequestRate (recent_requests : nat)
| SuspiciousEndpoint (endpoint : string)
| UnusualMethod (method : string)
| HighErrorRate (client_ip endpoint : string)
| MLAnomaly (anomaly_score : float).

(** The [request_data] dictionary: a key may be absent ([.get] then takes its
    default). *)
Record RequestData : Type := {
  rd_client_ip : option string;
  rd_user_agent : option string;
  rd_endpoint : option string;
  rd_method : option string;
  rd_status_code : option Z
}.

(** The dictionary [analyze_request] returns. *)
Record ThreatAssessment : Type := {
  threats : list Threat;
  risk_score : float;
  is_threat : bool;
  ta_client_ip : string;
  ta_timestamp : Q;
  ta_user_agent : string;
  ta_endpoint : string;
  ta_method : string;
  ta_status_code : Z
}.

(** One entry of [historical_data]. *)
Record HistoricalData : Type := {
  hd_requests_per_minute : option Num;
  hd_user_agent_length : option Num;
  hd_endpoint_length : option Num;
  hd_status_code : option Num;
  hd_risk_score : option Num
}.

(** The dictionary [get_security_summary] returns. *)
Record SecuritySummary : Type := {
  active_ips : nat;
  high_risk_ips : nat;
  total_requests_tracked : nat;
  model_trained : bool;
  suspicious_patterns_count : nat
}.

(** Security thresholds: set in [__init__], never assigned again. *)
Definition max_requests_per_minute : nat := 100.
Definition max_requests_per_ip_per_minute : nat := 50.
Definition suspicious_user_agents : list string :=
  ["sqlmap"; "nmap"; "nikto"; "dirb"; "gobuster"; "wfuzz";
   "burp"; "zap"; "scanner"; "bot"; "crawler"; "spider"].

Definition suspicious_endpoints : list string :=
  ["/admin"; "/wp-admin"; "/phpmyadmin"; "/.env"; "/config";
   "/api/v1/admin"; "/internal"; "/debug"; "/test"].

Definition allowed_methods : list string :=
  ["GET"; "POST"; "PUT"; "DELETE"; "PATCH"].

(** [x < y] on timestamps. *)
Definition Qltb (x y : Q) : bool := negb (Qle_bool y x).

(** [while times and times[0] < minute_ago: times.popleft()] *)
Fixpoint popleft_while (minute_ago : Q) (times : list Q) : list Q :=
  match times with
  | [] => []
  | t0 :: rest =>
      if Qltb t0 minute_ago then popleft_while minute_ago rest else times
  end.

(** [min(a, b)] of Python: [b] when [b < a], else [a]. *)
Definition py_min (a b : float) : float :=
  if (b <? a)%float then b else a.

Section SecurityMonitor.
Context `{IsolationForestImpl}.

(** The attributes of a [SecurityMonitor].  [error_counts] is created by the
    first request with a status of 400 or more ([hasattr]). *)
Record SecurityMonitor : Type := {
  ip_request_counts : gmap string nat;
  ip_request_times : gmap string (list Q);
  user_agents : gmap string nat;
  suspicious_patterns : list string;
  security_model : Forest;
  is_trained : bool;
  error_counts : option (gmap string nat)
}.

(** [SecurityMonitor()] *)
Definition new_SecurityMonitor : SecurityMonitor := {|
  ip_request_counts := ∅;
  ip_request_times := ∅;
  user_agents := ∅;
  suspicious_patterns := [];
  security_model := IsolationForest 0.05%float 42;
  is_trained := false;
  error_counts := None
|}.

(** [analyze_request(self, request_data)], with the reading of the clock
    [current_time] as an argument. *)
Definition analyze_request (self : SecurityMonitor) (current_time : Q)
    (request_data : RequestData) : SecurityMonitor * ThreatAssessment :=
  let client_ip := default "unknown" (rd_client_ip request_data) in
  let user_agent := default "" (rd_user_agent request_data) in
  let endpoint := default "" (rd_endpoint request_data) in
  let method := default "GET" (rd_method request_data) in
  let status_code := default 200%Z (rd_status_code request_data) in
  let threats0 : list Threat := [] in
  let risk0 : float := 0%float in
  (* Track request counts *)
  let counts :=
    <[client_ip := S (default 0%nat (ip_request_counts self !! client_ip))]>
      (ip_request_counts self) in
  let appended :=
    default [] (ip_request_times self !! client_ip) ++ [current_time] in
  (* Clean old requests (older than 1 minute) *)
  let minute_ago := (current_time - 60)%Q in
  let times := popleft_while minute_ago appended in
  let windows := <[client_ip := times]> (ip_request_times self) in
  (* Check for suspicious user agents *)
  let user_agent_lower := lower user_agent in
  let '(threats1, risk1) :=
    match first_match (fun ua => contains ua user_agent_lower)
            suspicious_user_agents with
    | Some suspicious_ua =>
        (threats0 ++ [SuspiciousUserAgent suspicious_ua], (risk0 + 0.3)%float)
    | None => (threats0, risk0)
    end in
  (* Check for high request rate from single IP *)
  let recent_requests := length times in
  let '(threats2, risk2) :=
    if (max_requests_per_ip_per_minute <? recent_requests)%nat
    then (threats1 ++ [HighRequestRate recent_requests], (risk1 + 0.4)%float)
    else (threats1, risk1) in
  (* Check for suspicious endpoints *)
  let '(threats3, risk3) :=
    match first_match (fun e => contains e (lower endpoint))
            suspicious_endpoints with
    | Some _ => (threats2 ++ [SuspiciousEndpoint endpoint], (risk2 + 0.2)%float)
    | None => (threats2, risk2)
    end in
  (* Check for HTTP methods abuse *)
  let '(threats4, risk4) :=
    if bool_decide (method ∈ allowed_methods)
    then (threats3, risk3)
    else (threats3 ++ [UnusualMethod method], (risk3 + 0.1)%float) in
  (* Check for error rate patterns *)
  let '(errors, threats5, risk5) :=
    if (400 <=? status_code)%Z then
      let error_key := String.append client_ip (String.append ":" endpoint) in
      let table := default ∅ (error_counts self) in
      let count := S (default 0%nat (table !! error_key)) in
      let table := <[error_key := count]> table in
      if (10 <? count)%nat
      then (Some table, threats4 ++ [HighErrorRate client_ip endpoint],
            (risk4 + 0.3)%float)
      else (Some table, threats4, risk4)
    else (error_counts self, threats4, risk4) in
  (* ML-based anomaly detection *)
  let '(threats6, risk6) :=
    if is_trained self && (0 <? recent_requests)%nat then
      let features :=
        [PyInt (Z.of_nat recent_requests);
         PyInt (Z.of_nat (String.length user_agent));
         PyInt (Z.of_nat (String.length endpoint));
         PyInt status_code;
         PyFloat risk5] in
      match decision_function (security_model self) features with
      | Raise _ => (threats5, risk5)
      | Ok anomaly_score =>
          match predict (security_model self) features with
          | Raise _ => (threats5, risk5)
          | Ok label =>
              if (label =? -1)%Z
              then (threats5 ++ [MLAnomaly anomaly_score], (risk5 + 0.5)%float)
              else (threats5, risk5)
          end
      end
    else (threats5, risk5) in
  ({| ip_request_counts := counts;
      ip_request_times := windows;
      user_agents := user_agents self;
      suspicious_patterns := suspicious_patterns self;
      security_model := security_model self;
      is_trained := is_trained self;
      error_counts := errors |},
   {| threats := threats6;
      risk_score := py_min risk6 1.0%float;
      is_threat := (0.5 <? risk6)%float;
      ta_client_ip := client_ip;
      ta_timestamp := current_time;
      ta_user_agent := user_agent;
      ta_endpoint := endpoint;
      ta_method := method;
      ta_status_code := status_code |}).

(** The row [train_security_model] builds from one entry. *)
Definition feature_vector (data : HistoricalData) : Row :=
  [default (PyInt 0) (hd_requests_per_minute data);
   default (PyInt 0) (hd_user_agent_length data);
   default (PyInt 0) (hd_endpoint_length data);
   default (PyInt 200) (hd_status_code data);
   default (PyFloat 0.0) (hd_risk_score data)].

(** [train_security_model(self, historical_data)] *)
Definition train_security_model (self : SecurityMonitor)
    (historical_data : list HistoricalData) : SecurityMonitor * bool :=
  let features := map feature_vector historical_data in
  if (length features <? 10)%nat then
    (self, false)
  else
    let '(fitted, outcome) := forest_fit (security_model self) features in
    match outcome with
    | Ok _ =>
        ({| ip_request_counts := ip_request_counts self;
            ip_request_times := ip_request_times self;
            user_agents := user_agents self;
            suspicious_patterns := suspicious_patterns self;
            security_model := fitted;
            is_trained := true;
            error_counts := error_counts self |}, true)
    | Raise _ =>
        ({| ip_request_counts := ip_request_counts self;
            ip_request_times := ip_request_times self;
            user_agents := user_agents self;
            suspicious_patterns := suspicious_patterns self;
            security_model := fitted;
            is_trained := is_trained self;
            error_counts := error_counts self |}, false)
    end.

(** [sum(1 for ip, times in d.items() if p(times))] *)
Definition count_items (p : list Q -> bool) (d : gmap string (list Q)) : nat :=
  sum_list (map (fun _ => 1%nat)
              (List.filter (fun item => p (snd item)) (map_to_list d))).

(** [times and times[-1] > minute_ago] *)
Definition recently_active (minute_ago : Q) (times : list Q) : bool :=
  match last times with
  | Some newest => Qltb minute_ago newest
  | None => false
  end.

(** [get_security_summary(self)], with the reading of the clock as an
    argument. *)
Definition get_security_summary (self : SecurityMonitor) (current_time : Q)
    : SecuritySummary :=
  let minute_ago := (current_time - 60)%Q in
  {| active_ips := count_items (recently_active minute_ago) (ip_request_times self);
     high_risk_ips :=
       count_items
         (fun times => (max_requests_per_ip_per_minute <? length times)%nat)
         (ip_request_times self);
     total_requests_tracked :=
       sum_list (map snd (map_to_list (ip_request_counts self)));
     model_trained := is_trained self;
     suspicious_patterns_count := length (suspicious_patterns self) |}.

(** [reset_counters(self)]: the two count dictionaries are emptied, every
    deque of [ip_request_times] is emptied in place (its key stays), and
    [error_counts] is emptied when the attribute exists. *)
Definition reset_counters (self : SecurityMonitor) : SecurityMonitor :=
  {| ip_request_counts := ∅;
     ip_request_times := (fun _ => []) <$> ip_request_times self;
     user_agents := ∅;
     suspicious_patterns := [];
     security_model := security_model self;
     is_trained := is_trained self;
     error_counts := (fun _ => ∅) <$> error_counts self |}.

End SecurityMonitor.

(** ** main.py: the metrics detector *)

(** The request body of [/train] and [/detect]. *)
Record MetricsData : Type := {
  md_timestamp : Q;
  service_name : string;
  cpu_usage : float;
  memory_usage : float;
  response_time : float;
  request_count : Z;
  error_rate : float
}.

Record AnomalyResult : Type := {
  is_anomaly : bool;
  anomaly_score : float;
  metrics : list (string * float);
  ar_timestamp : Q
}.

(** What a route hands back: its return value, or the [HTTPException] it
    raises. *)
Inductive Http (A : Type) : Type :=
| Response (body : A)
| HTTPException (status_code : Z) (detail : string).
Arguments Response {A} body.
Arguments HTTPException {A} status_code detail.

(** The body [/train] returns. *)
Record TrainReply : Type := {
  message : string;
  samples : nat
}.

(** The five features of a sample, in the order both routes use. *)
Definition metric_row (d : MetricsData) : Row :=
  [PyFloat (cpu_usage d); PyFloat (memory_usage d); PyFloat (response_time d);
   PyInt (request_count d); PyFloat (error_rate d)].

(** The [metrics] dictionary of the result.  The field is declared
    [Dict[str, float]], so the model class turns the integer count into a
    float. *)
Definition metric_dict (d : MetricsData) : list (string * float) :=
  [("cpu_usage", cpu_usage d);
   ("memory_usage", memory_usage d);
   ("response_time", response_time d);
   ("request_count", py_float_of_int (request_count d));
   ("error_rate", error_rate d)].

Section MetricsService.
Context `{IsolationForestImpl} `{StandardScalerImpl}.

(** The module-level globals of main.py that the two routes read and write,
    and the counter [anomalies_detected_total].  (The duration histogram
    records clock differences only and is left out.) *)
Record Service : Type := {
  isolation_forest : option Forest;
  scaler : Scaler;
  training_data : list Row;
  is_model_trained : bool;
  anomaly_counter : nat
}.

(** The globals as the module body leaves them. *)
Definition module_globals : Service := {|
  isolation_forest := None;
  scaler := StandardScaler;
  training_data := [];
  is_model_trained := false;
  anomaly_counter := 0
|}.

(** [startup_event()] *)
Definition startup_event (g : Service) : Service :=
  {| isolation_forest := Some (IsolationForest 0.1%float 42);
     scaler := scaler g;
     training_data := training_data g;
     is_model_trained := is_model_trained g;
     anomaly_counter := anomaly_counter g |}.

Definition training_failed (e : string) : Http TrainReply :=
  HTTPException 500 (String.append "Training failed: " e).

(** [train_model(data)] *)
Definition train_model (g : Service) (data : list MetricsData)
    : Service * Http TrainReply :=
  let df := map metric_row data in
  (* Scale the features *)
  let '(scaler', scaled) := fit_transform (scaler g) df in
  match scaled with
  | Raise e =>
      ({| isolation_forest := isolation_forest g;
          scaler := scaler';
          training_data := training_data g;
          is_model_trained := is_model_trained g;
          anomaly_counter := anomaly_counter g |}, training_failed e)
  | Ok scaled_data =>
      (* Train the model *)
      match isolation_forest g with
      | None =>
          ({| isolation_forest := None;
              scaler := scaler';
              training_data := training_data g;
              is_model_trained := is_model_trained g;
              anomaly_counter := anomaly_counter g |},
           training_failed "'NoneType' object has no attribute 'fit'")
      | Some forest =>
          let '(forest', outcome) := forest_fit forest scaled_data in
          match outcome with
          | Raise e =>
              ({| isolation_forest := Some forest';
                  scaler := scaler';
                  training_data := training_data g;
                  is_model_trained := is_model_trained g;
                  anomaly_counter := anomaly_counter g |}, training_failed e)
          | Ok _ =>
              ({| isolation_forest := Some forest';
                  scaler := scaler';
                  training_data := scaled_data;
                  is_model_trained := true;
                  anomaly_counter := anomaly_counter g |},
               Response {| message := "Model trained successfully";
                           samples := length data |})
          end
      end
  end.

Definition detection_failed (e : string) : Http AnomalyResult :=
  HTTPException 500 (String.append "Detection failed: " e).

(** [detect_anomaly(data)]; [now] is the clock read for the result's
    timestamp. *)
Definition detect_anomaly (g : Service) (now : Q) (data : MetricsData)
    : Service * Http AnomalyResult :=
  if negb (is_model_trained g) then
    (g, HTTPException 400 "Model not trained yet")
  else
    (* Prepare features *)
    let features := metric_row data in
    (* Scale features *)
    match transform (scaler g) features with
    | Raise e => (g, detection_failed e)
    | Ok scaled_features =>
        (* Predict anomaly *)
        match isolation_forest g with
        | None =>
            (g, detection_failed
                  "'NoneType' object has no attribute 'decision_function'")
        | Some forest =>
            match decision_function forest scaled_features with
            | Raise e => (g, detection_failed e)
            | Ok score =>
                match predict forest scaled_features with
                | Raise e => (g, detection_failed e)
                | Ok label =>
                    let flagged := (label =? -1)%Z in
                    ({| isolation_forest := isolation_forest g;
                        scaler := scaler g;
                        training_data := training_data g;
                        is_model_trained := is_model_trained g;
                        anomaly_counter :=
                          if flagged then S (anomaly_counter g)
                          else anomaly_counter g |},
                     Response {| is_anomaly := flagged;
                                 anomaly_score := score;
                                 metrics := metric_dict data;
                                 ar_timestamp := now |})
                end
            end
        end
    end.

(** A call on the service, and what it returns. *)
Inductive ServiceCall : Type :=
| Startup
| Train (data : list MetricsData)
| Detect (now : Q) (data : MetricsData).

Inductive ServiceReply : Type :=
| Started
| TrainDone (r : Http TrainReply)
| DetectDone (r : Http AnomalyResult).

Definition handle (g : Service) (c : ServiceCall) : Service * ServiceReply :=
  match c with
  | Startup => (startup_event g, Started)
  | Train data => let '(g', r) := train_model g data in (g', TrainDone r)
  | Detect now data => let '(g', r) := detect_anomaly g now data in (g', DetectDone r)
  end.

(** The calls served one after the other, with the replies in order. *)
Fixpoint serve (g : Service) (calls : list ServiceCall)
    : Service * list ServiceReply :=
  match calls with
  | [] => (g, [])
  | c :: calls' =>
      let '(g1, r) := handle g c in
      let '(g2, rs) := serve g1 calls' in
      (g2, r :: rs)
  end.


(** A set flag comes with a model object. *)
Definition forest_ready (g : Service) : Prop :=
  is_model_trained g = true -> exists forest, isolation_forest g = Some forest.

Definition train_succeeded (r : ServiceReply) : bool :=
  match r with
  | TrainDone (Response _) => true
  | _ => false
  end.

End MetricsService.

(** ** The rule engine, rule by rule

    The rules of the threat detector as the design document lists them: each
    rule, taken on its own, reports a threat when it fires, and a threat
    carries the weight of its rule.  [analyze_request] is compared with these
    definitions below. *)

Section RuleEngine.
Context `{IsolationForestImpl}.

Definition client_of (rq : RequestData) : string :=
  default "unknown" (rd_client_ip rq).
Definition user_agent_of (rq : RequestData) : string :=
  default "" (rd_user_agent rq).
Definition endpoint_of (rq : RequestData) : string :=
  default "" (rd_endpoint rq).
Definition method_of (rq : RequestData) : string :=
  default "GET" (rd_method rq).
Definition status_of (rq : RequestData) : Z :=
  default 200%Z (rd_status_code rq).

(** The window a monitor keeps for a client (empty when it has none). *)
Definition window_of (self : SecurityMonitor) (client : string) : list Q :=
  default [] (ip_request_times self !! client).

(** The calling client's window once the request is recorded at time [t]. *)
Definition window_after (self : SecurityMonitor) (t : Q) (rq : RequestData)
    : list Q :=
  popleft_while (t - 60)%Q (window_of self (client_of rq) ++ [t]).

(** Rule 1: the user agent holds a denylisted substring; the first one in
    the list is reported. *)
Definition rule_user_agent (rq : RequestData) : option Threat :=
  SuspiciousUserAgent <$>
    first_match (fun ua => contains ua (lower (user_agent_of rq)))
      suspicious_user_agents.

(** Rule 2: the window, after the record, holds more than 50 requests. *)
Definition rule_request_rate (self : SecurityMonitor) (t : Q)
    (rq : RequestData) : option Threat :=
  let n := length (window_after self t rq) in
  if (50 <? n)%nat then Some (HighRequestRate n) else None.

(** Rule 3: the endpoint holds a sensitive path fragment. *)
Definition rule_endpoint (rq : RequestData) : option Threat :=
  if existsb (fun e => contains e (lower (endpoint_of rq))) suspicious_endpoints
  then Some (SuspiciousEndpoint (endpoint_of rq))
  else None.

(** Rule 4: the method is outside the allowed set. *)
Definition rule_method (rq : RequestData) : option Threat :=
  if bool_decide (method_of rq ∈ allowed_methods) then None
  else Some (UnusualMethod (method_of rq)).

Definition error_key (rq : RequestData) : string :=
  String.append (client_of rq) (String.append ":" (endpoint_of rq)).

(** The error counter of a client and endpoint pair (0 when there is none). *)
Definition error_count (self : SecurityMonitor) (key : string) : nat :=
  default 0%nat (default ∅ (error_counts self) !! key).

(** Rule 5: a status of 400 or more bumps the pair's counter, and the rule
    fires when the counter then exceeds 10. *)
Definition rule_error_rate (self : SecurityMonitor) (rq : RequestData)
    : option Threat :=
  if (400 <=? status_of rq)%Z && (10 <? S (error_count self (error_key rq)))%nat
  then Some (HighErrorRate (client_of rq) (endpoint_of rq))
  else None.

(** The weight each kind of threat adds to the accumulator. *)
Definition threat_weight (th : Threat) : float :=
  match th with
  | SuspiciousUserAgent _ => 0.3
  | HighRequestRate _ => 0.4
  | SuspiciousEndpoint _ => 0.2
  | UnusualMethod _ => 0.1
  | HighErrorRate _ _ => 0.3
  | MLAnomaly _ => 0.5
  end%float.

(** The accumulator: the weights added up from 0.0 in the order given. *)
Definition accumulate (ths : list Threat) : float :=
  fold_left PrimFloat.add (map threat_weight ths) 0%float.

(** The threats of rules 1 to 5, in rule order. *)
Definition heuristic_threats (self : SecurityMonitor) (t : Q)
    (rq : RequestData) : list Threat :=
  omap id [rule_user_agent rq; rule_request_rate self t rq; rule_endpoint rq;
           rule_method rq; rule_error_rate self rq].

(** The feature row of rule 6. *)
Definition ml_features (self : SecurityMonitor) (t : Q) (rq : RequestData)
    : Row :=
  [PyInt (Z.of_nat (length (window_after self t rq)));
   PyInt (Z.of_nat (String.length (user_agent_of rq)));
   PyInt (Z.of_nat (String.length (endpoint_of rq)));
   PyInt (status_of rq);
   PyFloat (accumulate (heuristic_threats self t rq))].

(** What a model says of a row: the score when it labels the row an outlier
    (-1); nothing when it labels it an inlier or when a call raises. *)
Definition flagged_by (model : Forest) (x : Row) : option float :=
  match decision_function model x, predict model x with
  | Ok score, Ok label => if (label =? -1)%Z then Some score else None
  | _, _ => None
  end.

(** Rule 6: a trained model is asked about the feature row. *)
Definition rule_model (self : SecurityMonitor) (t : Q) (rq : RequestData)
    : option Threat :=
  if is_trained self
  then MLAnomaly <$> flagged_by (security_model self) (ml_features self t rq)
  else None.

(** Two requests that differ in the user agent at most. *)
Definition same_except_user_agent (a b : RequestData) : Prop :=
  rd_client_ip a = rd_client_ip b /\
  rd_endpoint a = rd_endpoint b /\
  rd_method a = rd_method b /\
  rd_status_code a = rd_status_code b.

(** The clock never runs backwards over a sequence of calls: the state of a
    monitor that has served calls up to time [now]. *)
Inductive served_until : Q -> SecurityMonitor -> Prop :=
| served_new now :
    served_until now new_SecurityMonitor
| served_analyze now t self rq :
    served_until now self -> (now <= t)%Q ->
    served_until t (fst (analyze_request self t rq))
| served_train now self data :
    served_until now self ->
    served_until now (fst (train_security_model self data))
| served_reset now self :
    served_until now self ->
    served_until now (reset_counters self)
| served_later now t self :
    served_until now self -> (now <= t)%Q ->
    served_until t self.

(** The high-activity count with every window pruned at query time: the
    clients whose window, cut down to the 60 seconds before [now], has more
    than 50 entries. *)
Definition high_activity_clients_pruned (self : SecurityMonitor) (now : Q)
    : nat :=
  size (filter
          (fun item : string * list Q =>
             (50 < length (popleft_while (now - 60)%Q (snd item)))%nat)
          (ip_request_times self)).

(** The clients whose stored window has more than 50 entries. *)
Definition high_activity_clients_stored (self : SecurityMonitor) : nat :=
  size (filter (fun item : string * list Q => (50 < length (snd item))%nat)
          (ip_request_times self)).

End RuleEngine.

(** ** Calls on a monitor, one after the other *)

Section MonitorCalls.
Context `{IsolationForestImpl}.

Inductive MonitorCall : Type :=
| CallAnalyze (current_time : Q) (request_data : RequestData)
| CallTrain (historical_data : list HistoricalData)
| CallSummary (current_time : Q)
| CallReset.

Inductive MonitorReply : Type :=
| Analyzed (assessment : ThreatAssessment)
| TrainReturned (success : bool)
| Summarized (summary : SecuritySummary)
| ResetDone.

Definition monitor_handle (self : SecurityMonitor) (c : MonitorCall)
    : SecurityMonitor * MonitorReply :=
  match c with
  | CallAnalyze current_time request_data =>
      let '(self', a) := analyze_request self current_time request_data in
      (self', Analyzed a)
  | CallTrain historical_data =>
      let '(self', ok) := train_security_model self historical_data in
      (self', TrainReturned ok)
  | CallSummary current_time =>
      (self, Summarized (get_security_summary self current_time))
  | CallReset => (reset_counters self, ResetDone)
  end.

Fixpoint monitor_serve (self : SecurityMonitor) (calls : list MonitorCall)
    : SecurityMonitor * list MonitorReply :=
  match calls with
  | [] => (self, [])
  | c :: calls' =>
      let '(self1, r) := monitor_handle self c in
      let '(self2, rs) := monitor_serve self1 calls' in
      (self2, r :: rs)
  end.

Definition train_returned_true (r : MonitorReply) : bool :=
  match r with
  | TrainReturned true => true
  | _ => false
  end.

(** A call made at or after time [t] that is not a reset. *)
Definition call_not_before (t : Q) (c : MonitorCall) : Prop :=
  match c with
  | CallAnalyze current_time _ => (t <= current_time)%Q
  | CallReset => False
  | CallTrain _ | CallSummary _ => True
  end.

(** The same request analysed once at each of the clock readings, in turn. *)
Fixpoint analyze_each (self : SecurityMonitor) (times : list Q)
    (request_data : RequestData) : SecurityMonitor :=
  match times with
  | [] => self
  | t :: times' =>
      analyze_each (fst (analyze_request self t request_data)) times'
        request_data
  end.

(** The request counter of a client (0 when it has none). *)
Definition request_count_of (self : SecurityMonitor) (client : string) : nat :=
  default 0%nat (ip_request_counts self !! client).

End MonitorCalls.

(** ** main.py: the security routes and the middleware *)

(** The body of [/security/analyze] and an entry of the body of
    [/security/train]. *)
Record SecurityRequest : Type := {
  sr_client_ip : string;
  sr_user_agent : string;
  sr_endpoint : string;
  sr_method : string;
  sr_status_code : Z;
  sr_timestamp : Q
}.

(** The response model of [/security/analyze]: five of the nine keys of the
    assessment. *)
Record SecurityResult : Type := {
  sres_threats : list Threat;
  sres_risk_score : float;
  sres_is_threat : bool;
  sres_client_ip : string;
  sres_timestamp : Q
}.

(** The counter [security_threats_detected_total] and the gauges
    [security_risk_score] and [active_ips]. *)
Record SecurityGauges : Type := {
  security_threats_counter : nat;
  security_risk_score : float;
  active_ips_gauge : nat
}.

Definition new_SecurityGauges : SecurityGauges :=
  {| security_threats_counter := 0;
     security_risk_score := 0%float;
     active_ips_gauge := 0 |}.

(** What the middleware reads of a request. *)
Record HttpRequest : Type := {
  client_host : string;
  user_agent_header : option string;
  url_path : string;
  http_method : string
}.

(** The response the middleware returns: the status code of the response it
    was given, the value whose [str] is the header [X-Security-Risk-Score],
    and whether the header [X-Security-Threat] is set. *)
Record SecuredResponse : Type := {
  response_status : Z;
  x_security_risk_score : float;
  x_security_threat : bool
}.

(** The body of [/health]. *)
Record HealthReply : Type := {
  health_status : string;
  health_model_trained : bool
}.

Section SecurityRoutes.
Context `{IsolationForestImpl}.

(** [str(e)] of an [HTTPException] with the given status code and detail. *)
Variable str_HTTPException : Z -> string -> string.

(** The [request_data] dictionary [analyze_security_request] builds. *)
Definition request_data_of (r : SecurityRequest) : RequestData :=
  {| rd_client_ip := Some (sr_client_ip r);
     rd_user_agent := Some (sr_user_agent r);
     rd_endpoint := Some (sr_endpoint r);
     rd_method := Some (sr_method r);
     rd_status_code := Some (sr_status_code r) |}.

(** [analyze_security_request(request)]; [now] is the clock read inside
    [analyze_request]. *)
Definition analyze_security_request (monitor : SecurityMonitor)
    (gauges : SecurityGauges) (now : Q) (r : SecurityRequest)
    : SecurityMonitor * SecurityGauges * Http SecurityResult :=
  let request_data := request_data_of r in
  let '(monitor', result) := analyze_request monitor now request_data in
  (* Update metrics *)
  let gauges' :=
    {| security_threats_counter :=
         if is_threat result then S (security_threats_counter gauges)
         else security_threats_counter gauges;
       security_risk_score := risk_score result;
       active_ips_gauge := active_ips_gauge gauges |} in
  (monitor', gauges',
   Response {| sres_threats := threats result;
               sres_risk_score := risk_score result;
               sres_is_threat := is_threat result;
               sres_client_ip := ta_client_ip result;
               sres_timestamp := ta_timestamp result |}).

(** The entry of [historical_data] the route [/security/train] builds from
    one request. *)
Definition history_of (r : SecurityRequest) : HistoricalData :=
  {| hd_requests_per_minute := Some (PyInt 1);
     hd_user_agent_length :=
       Some (PyInt (Z.of_nat (String.length (sr_user_agent r))));
     hd_endpoint_length :=
       Some (PyInt (Z.of_nat (String.length (sr_endpoint r))));
     hd_status_code := Some (PyInt (sr_status_code r));
     hd_risk_score := Some (PyFloat 0.0) |}.

(** The route [train_security_model(data)] of main.py.  Its
    [raise HTTPException(status_code=400, ...)] stands inside the [try], so
    the [except Exception] clause catches it and raises the 500. *)
Definition route_train_security_model (monitor : SecurityMonitor)
    (data : list SecurityRequest) : SecurityMonitor * Http TrainReply :=
  let historical_data := map history_of data in
  let '(monitor', success) := train_security_model monitor historical_data in
  if success then
    (monitor', Response {| message := "Security model trained successfully";
                           samples := length data |})
  else
    (monitor',
     HTTPException 500
       (String.append "Training failed: "
          (str_HTTPException 400 "Failed to train security model"))).

(** The route [get_security_summary()] of main.py. *)
Definition route_get_security_summary (monitor : SecurityMonitor)
    (gauges : SecurityGauges) (now : Q)
    : SecurityGauges * Http SecuritySummary :=
  let summary := get_security_summary monitor now in
  ({| security_threats_counter := security_threats_counter gauges;
      security_risk_score := security_risk_score gauges;
      active_ips_gauge := active_ips summary |},
   Response summary).

(** [security_middleware(request, call_next)].  [t1] and [t2] are the clock
    readings of the two analyses; [call_next] is given by what the rest of
    the application does to the monitor and the status code of the response
    it returns. *)
Definition security_middleware (monitor : SecurityMonitor) (t1 t2 : Q)
    (request : HttpRequest)
    (call_next : SecurityMonitor -> SecurityMonitor * Z)
    : SecurityMonitor * SecuredResponse :=
  (* Extract request information *)
  let client_ip := client_host request in
  let user_agent := default "" (user_agent_header request) in
  let endpoint := url_path request in
  let method := http_method request in
  (* Analyze the request *)
  let request_data :=
    {| rd_client_ip := Some client_ip;
       rd_user_agent := Some user_agent;
       rd_endpoint := Some endpoint;
       rd_method := Some method;
       rd_status_code := Some 200%Z |} in
  let '(monitor1, security_result) := analyze_request monitor t1 request_data in
  (* Process the request *)
  let '(monitor2, status_code) := call_next monitor1 in
  (* Update security analysis with actual status code *)
  let request_data :=
    {| rd_client_ip := Some client_ip;
       rd_user_agent := Some user_agent;
       rd_endpoint := Some endpoint;
       rd_method := Some method;
       rd_status_code := Some status_code |} in
  let '(monitor3, final_result) := analyze_request monitor2 t2 request_data in
  (* Add security headers *)
  (monitor3,
   {| response_status := status_code;
      x_security_risk_score := risk_score final_result;
      x_security_threat := is_threat final_result |}).

(** A [call_next] that leaves the monitor alone and answers with a status. *)
Definition answer_with (status_code : Z) (monitor : SecurityMonitor)
    : SecurityMonitor * Z :=
  (monitor, status_code).

(** The request data of the middleware's second analysis. *)
Definition middleware_request_data (request : HttpRequest) (status_code : Z)
    : RequestData :=
  {| rd_client_ip := Some (client_host request);
     rd_user_agent := Some (default "" (user_agent_header request));
     rd_endpoint := Some (url_path request);
     rd_method := Some (http_method request);
     rd_status_code := Some status_code |}.

(** [n] requests through the middleware at the same clock reading, each
    answered with the same status by the rest of the application. *)
Fixpoint middleware_times (n : nat) (monitor : SecurityMonitor) (t : Q)
    (request : HttpRequest) (status_code : Z) : SecurityMonitor :=
  match n with
  | O => monitor
  | S n' =>
      middleware_times n'
        (fst (security_middleware monitor t t request (answer_with status_code)))
        t request status_code
  end.

End SecurityRoutes.

Section HealthRoute.
Context `{IsolationForestImpl} `{StandardScalerImpl}.

(** [health()] *)
Definition health (g : Service) : HealthReply :=
  {| health_status := "healthy"; health_model_trained := is_model_trained g |}.

(** The detections of a run that flagged their sample. *)
Definition flagged_detection (r : ServiceReply) : bool :=
  match r with
  | DetectDone (Response result) => is_anomaly result
  | _ => false
  end.

End HealthRoute.

(** ** Stand-in estimators

    Small deterministic implementations of the two estimator interfaces, used
    to run the service on concrete inputs.  The forest remembers the largest
    first feature of its training rows and flags a row whose first feature is
    larger; the scaler leaves rows as they are.  Like the library's, both
    refuse an empty batch and refuse to work before they are fitted, and a
    scaler whose fit is refused is left unfitted (the library's [fit] resets
    the scaler before it looks at the batch). *)

Definition first_feature (x : Row) : Z :=
  match x with
  | PyInt z :: _ => z
  | _ => 0%Z
  end.

#[export] Instance ceiling_forest : IsolationForestImpl := {|
  Forest := option Z;
  IsolationForest := fun _ _ => None;
  forest_fit := fun f X =>
    match X with
    | [] => (f, Raise "Found array with 0 sample(s)")
    | _ => (Some (foldr Z.max 0%Z (map first_feature X)), Ok tt)
    end;
  decision_function := fun f x =>
    match f with
    | None => Raise "This IsolationForest instance is not fitted yet"
    | Some top =>
        Ok (if (top <? first_feature x)%Z then (-0.1)%float else 0.1%float)
    end;
  predict := fun f x =>
    match f with
    | None => Raise "This IsolationForest instance is not fitted yet"
    | Some top => Ok (if (top <? first_feature x)%Z then (-1)%Z else 1%Z)
    end
|}.

#[export] Instance unit_scaler : StandardScalerImpl := {|
  Scaler := bool;
  StandardScaler := false;
  fit_transform := fun s X =>
    match X with
    | [] => (false, Raise "Found array with 0 sample(s)")
    | _ => (true, Ok X)
    end;
  transform := fun s x =>
    if s then Ok x else Raise "This StandardScaler instance is not fitted yet"
|}.

(** A request with all five keys present. *)
Definition request (client_ip user_agent endpoint method : string)
    (status_code : Z) : RequestData :=
  {| rd_client_ip := Some client_ip;
     rd_user_agent := Some user_agent;
     rd_endpoint := Some endpoint;
     rd_method := Some method;
     rd_status_code := Some status_code |}.

(** The same request analysed [n] times at the same clock reading. *)
Fixpoint analyze_times `{IsolationForestImpl} (n : nat) (self : SecurityMonitor)
    (current_time : Q) (request_data : RequestData) : SecurityMonitor :=
  match n with
  | O => self
  | S n' =>
      analyze_times n' (fst (analyze_request self current_time request_data))
        current_time request_data
  end.

(** Concrete inputs. *)

Definition plain_login : RequestData :=
  request "1.2.3.4" "curl/8.0" "/login" "GET" 200.

Definition sqlmap_login : RequestData :=
  request "1.2.3.4" "sqlmap/1.0" "/login" "GET" 200.

Definition plain_admin_error : RequestData :=
  request "1.2.3.4" "curl/8.0" "/admin" "GET" 500.

Definition sqlmap_admin_error : RequestData :=
  request "1.2.3.4" "sqlmap/1.0" "/admin" "GET" 500.

Definition plain_debug_trace : RequestData :=
  request "1.2.3.4" "curl/8.0" "/debug" "TRACE" 200.

Definition sqlmap_debug_trace : RequestData :=
  request "1.2.3.4" "sqlmap/1.0" "/debug" "TRACE" 200.

(** An entry of [historical_data] as [/security/train] builds it. *)
Definition history_entry (user_agent_length endpoint_length status_code : Z)
    : HistoricalData :=
  {| hd_requests_per_minute := Some (PyInt 1);
     hd_user_agent_length := Some (PyInt user_agent_length);
     hd_endpoint_length := Some (PyInt endpoint_length);
     hd_status_code := Some (PyInt status_code);
     hd_risk_score := Some (PyFloat 0.0) |}.

(** A monitor trained on ten entries. *)
Definition trained_monitor : SecurityMonitor :=
  fst (train_security_model new_SecurityMonitor
         (replicate 10 (history_entry 8 6 200))).

Definition metrics_sample (cpu : float) : MetricsData :=
  {| md_timestamp := 0;
     service_name := "api";
     cpu_usage := cpu;
     memory_usage := 0.5;
     response_time := 0.2;
     request_count := 100;
     error_rate := 0.01 |}.

Definition nine_samples : list MetricsData :=
  map metrics_sample [0.1; 0.2; 0.3; 0.4; 0.5; 0.6; 0.7; 0.8; 0.9]%float.

Definition failed_login : RequestData :=
  request "1.2.3.4" "curl/8.0" "/login" "POST" 401.

Definition mixed_case_sqlmap : RequestData :=
  request "1.2.3.4" "Mozilla/5.0 SQLMap/1.7" "/login" "GET" 200.

(** An IPv6 client, and the pair of another client and endpoint that is
    written with the same key. *)
Definition ipv6_failure : RequestData :=
  request "fe80::1" "curl/8.0" "/login" "GET" 500.

Definition colliding_failure : RequestData :=
  request "fe80:" "curl/8.0" "1:/login" "GET" 500.

Definition login_body : SecurityRequest :=
  {| sr_client_ip := "1.2.3.4";
     sr_user_agent := "curl/8.0";
     sr_endpoint := "/login";
     sr_method := "GET";
     sr_status_code := 200;
     sr_timestamp := 0 |}.

Definition curl_login : HttpRequest :=
  {| client_host := "1.2.3.4";
     user_agent_header := Some "curl/8.0";
     url_path := "/login";
     http_method := "GET" |}.

(** * Properties *)

Section SecurityProperties.
Context `{IsolationForestImpl}.

(** ** The sliding window *)

Lemma Qltb_true (x y : Q) : Qltb x y = true <-> (x < y)%Q.
Proof.
  unfold Qltb. rewrite negb_true_iff, <- not_true_iff_false, Qle_bool_iff.
  split; [apply Qnot_le_lt | apply Qlt_not_le].
Qed.

Lemma Qltb_false (x y : Q) : Qltb x y = false <-> (y <= x)%Q.
Proof.
  unfold Qltb. rewrite negb_false_iff. apply Qle_bool_iff.
Qed.

Lemma now_not_old (t : Q) : Qltb t (t - 60)%Q = false.
Proof. apply Qltb_false. lra. Qed.

(** Pruning removes a prefix. *)
Lemma popleft_while_suffix (m : Q) (times : list Q) :
  exists dropped, times = dropped ++ popleft_while m times.
Proof.
  induction times as [|t0 rest IH]; simpl.
  - exists []. reflexivity.
  - destruct (Qltb t0 m).
    + destruct IH as [d Hd]. exists (t0 :: d). simpl. congruence.
    + exists []. reflexivity.
Qed.

(** The entry just appended survives the pruning. *)
Lemma popleft_while_keeps_last (m t : Q) (times : list Q) :
  Qltb t m = false ->
  exists kept, popleft_while m (times ++ [t]) = kept ++ [t].
Proof.
  intros Ht. induction times as [|t0 rest IH]; simpl.
  - rewrite Ht. exists []. reflexivity.
  - destruct (Qltb t0 m).
    + exact IH.
    + exists (t0 :: rest). reflexivity.
Qed.

Lemma popleft_while_head (m : Q) (times : list Q) :
  match popleft_while m times with
  | [] => True
  | t0 :: _ => (m <= t0)%Q
  end.
Proof.
  induction times as [|t0 rest IH]; simpl; [exact I|].
  destruct (Qltb t0 m) eqn:E; [exact IH|].
  simpl. apply Qltb_false, E.
Qed.

Lemma window_after_keeps_now (self : SecurityMonitor) (t : Q) (rq : RequestData) :
  exists kept, window_after self t rq = kept ++ [t].
Proof. apply popleft_while_keeps_last, now_not_old. Qed.

Lemma window_after_nonempty (self : SecurityMonitor) (t : Q) (rq : RequestData) :
  (0 <? length (window_after self t rq))%nat = true.
Proof.
  destruct (window_after_keeps_now self t rq) as [k ->].
  rewrite length_app. simpl. apply Nat.ltb_lt. lia.
Qed.

Lemma StronglySorted_snoc (l : list Q) (x : Q) :
  StronglySorted Qle l -> Forall (fun y => (y <= x)%Q) l ->
  StronglySorted Qle (l ++ [x]).
Proof.
  induction 1 as [|a l Hl IH Ha]; intros Hx; simpl.
  - repeat constructor.
  - inversion Hx; subst. constructor; [auto|].
    apply Forall_app; split; [assumption|]. constructor; [assumption|constructor].
Qed.

Lemma StronglySorted_drop (d l : list Q) :
  StronglySorted Qle (d ++ l) -> StronglySorted Qle l.
Proof.
  induction d as [|a d IH]; simpl; [auto|].
  intros Hs. apply IH. inversion Hs; assumption.
Qed.

(** A window that is ascending and not ahead of the clock stays so when the
    request at [t] is recorded, and nothing older than [t - 60] is left. *)
Lemma record_window (now t : Q) (times : list Q) :
  StronglySorted Qle times -> Forall (fun x => (x <= now)%Q) times ->
  (now <= t)%Q ->
  let w := popleft_while (t - 60)%Q (times ++ [t]) in
  StronglySorted Qle w /\ Forall (fun x => (t - 60 <= x)%Q /\ (x <= t)%Q) w.
Proof.
  intros Hs Hb Hle w.
  assert (Hall : Forall (fun x => (x <= t)%Q) (times ++ [t])).
  { apply Forall_app; split.
    - eapply Forall_impl; [exact Hb|]. simpl. intros x Hx. lra.
    - constructor; [lra|constructor]. }
  assert (Hsort : StronglySorted Qle (times ++ [t])).
  { apply StronglySorted_snoc; [assumption|].
    eapply Forall_impl; [exact Hb|]. simpl. intros x Hx. lra. }
  destruct (popleft_while_suffix (t - 60)%Q (times ++ [t])) as [d Hd].
  fold w in Hd. pose proof (popleft_while_head (t - 60)%Q (times ++ [t])) as Hh.
  fold w in Hh. rewrite Hd in Hall, Hsort.
  apply Forall_app in Hall as [_ Hall].
  apply StronglySorted_drop in Hsort.
  split; [assumption|].
  destruct w as [|t0 w']; [constructor|].
  inversion Hsort as [|? ? Hs' Hge]; subst.
  inversion Hall as [|? ? Ht0 Hall']; subst.
  constructor; [split; assumption|].
  apply Forall_forall. intros x Hx.
  rewrite Forall_forall in Hge, Hall'.
  split; [|auto]. specialize (Hge x Hx). lra.
Qed.

(** ** [analyze_request] against the rule engine *)

Lemma first_match_existsb {A : Type} (p : A -> bool) (xs : list A) :
  existsb p xs = match first_match p xs with Some _ => true | None => false end.
Proof.
  induction xs as [|x xs IH]; simpl; [reflexivity|].
  destruct (p x); simpl; [reflexivity | exact IH].
Qed.

(** The assessment [analyze_request] returns lists the threats of rules 1 to
    5 and then that of rule 6, and its score is their accumulated weight. *)
Lemma analyze_request_assessment (self : SecurityMonitor) (t : Q)
    (rq : RequestData) :
  snd (analyze_request self t rq) =
  let ths := heuristic_threats self t rq ++ option_list (rule_model self t rq) in
  {| threats := ths;
     risk_score := py_min (accumulate ths) 1.0%float;
     is_threat := (0.5 <? accumulate ths)%float;
     ta_client_ip := client_of rq;
     ta_timestamp := t;
     ta_user_agent := user_agent_of rq;
     ta_endpoint := endpoint_of rq;
     ta_method := method_of rq;
     ta_status_code := status_of rq |}.
Proof.
  unfold analyze_request, heuristic_threats, rule_model, ml_features,
    heuristic_threats, flagged_by, rule_user_agent, rule_request_rate,
    rule_endpoint, rule_method, rule_error_rate, error_count, error_key.
  rewrite first_match_existsb.
  fold (client_of rq) (user_agent_of rq) (endpoint_of rq) (method_of rq)
    (status_of rq).
  fold (window_of self (client_of rq)).
  fold (window_after self t rq).
  rewrite (window_after_nonempty self t rq), andb_true_r.
  unfold max_requests_per_ip_per_minute.
  set (w := window_after self t rq).
  destruct (first_match _ suspicious_user_agents);
  destruct (50 <? length w)%nat;
  destruct (first_match _ suspicious_endpoints);
  destruct (bool_decide _);
  destruct (400 <=? status_of rq)%Z;
  try destruct (10 <? _)%nat;
  destruct (is_trained self);
  cbn [fmap option_fmap option_map omap list_omap id app andb
       accumulate map threat_weight fold_left option_list fst snd];
  try reflexivity.
  all: destruct (decision_function _ _) as [score|]; [|reflexivity].
  all: destruct (predict _ _) as [label|]; [|reflexivity].
  all: destruct (label =? -1)%Z; reflexivity.
Qed.

(** The state [analyze_request] leaves. *)
Lemma analyze_request_state (self : SecurityMonitor) (t : Q) (rq : RequestData) :
  fst (analyze_request self t rq) =
  {| ip_request_counts :=
       <[client_of rq := S (default 0%nat (ip_request_counts self !! client_of rq))]>
         (ip_request_counts self);
     ip_request_times :=
       <[client_of rq := window_after self t rq]> (ip_request_times self);
     user_agents := user_agents self;
     suspicious_patterns := suspicious_patterns self;
     security_model := security_model self;
     is_trained := is_trained self;
     error_counts :=
       if (400 <=? status_of rq)%Z
       then Some (<[error_key rq := S (error_count self (error_key rq))]>
                    (default ∅ (error_counts self)))
       else error_counts self |}.
Proof.
  unfold analyze_request, error_count, error_key.
  fold (client_of rq) (user_agent_of rq) (endpoint_of rq) (method_of rq)
    (status_of rq).
  fold (window_of self (client_of rq)).
  fold (window_after self t rq).
  destruct (first_match _ suspicious_user_agents);
  destruct (_ <? length _)%nat;
  destruct (first_match _ suspicious_endpoints);
  destruct (bool_decide _);
  destruct (400 <=? status_of rq)%Z;
  try destruct (10 <? _)%nat;
  destruct (is_trained self && _);
  try reflexivity.
  all: destruct (decision_function _ _) as [score|]; [|reflexivity].
  all: destruct (predict _ _) as [label|]; [|reflexivity].
  all: destruct (label =? -1)%Z; reflexivity.
Qed.

Lemma window_of_analyze_request (self : SecurityMonitor) (t : Q)
    (rq : RequestData) :
  window_of (fst (analyze_request self t rq)) (client_of rq)
  = window_after self t rq.
Proof.
  rewrite analyze_request_state. unfold window_of. simpl.
  rewrite lookup_insert_eq. reflexivity.
Qed.

Lemma window_of_analyze_request_other (self : SecurityMonitor) (t : Q)
    (rq : RequestData) (client : string) :
  client <> client_of rq ->
  window_of (fst (analyze_request self t rq)) client = window_of self client.
Proof.
  intros Hne. rewrite analyze_request_state. unfold window_of. simpl.
  rewrite lookup_insert_ne by congruence. reflexivity.
Qed.

Lemma train_security_model_windows (self : SecurityMonitor)
    (data : list HistoricalData) :
  ip_request_times (fst (train_security_model self data)) = ip_request_times self.
Proof.
  unfold train_security_model.
  destruct (_ <? 10)%nat; [reflexivity|].
  destruct (forest_fit _ _) as [fitted [u|e]]; reflexivity.
Qed.

(** Every window of a monitor that has served calls up to [now] is ascending
    and holds no timestamp after [now]. *)
Lemma served_windows (now : Q) (self : SecurityMonitor) :
  served_until now self ->
  forall client,
    StronglySorted Qle (window_of self client) /\
    Forall (fun x => (x <= now)%Q) (window_of self client).
Proof.
  induction 1 as [now|now t self rq Hs IH Hle|now self data Hs IH
                 |now self Hs IH|now t self Hs IH Hle]; intros client.
  - unfold window_of. simpl. rewrite lookup_empty. simpl.
    split; constructor.
  - destruct (decide (client = client_of rq)) as [->|Hne].
    + rewrite window_of_analyze_request.
      destruct (IH (client_of rq)) as [Hsort Hb].
      destruct (record_window now t _ Hsort Hb Hle) as [H1 H2].
      split; [exact H1|].
      eapply Forall_impl; [exact H2|]. simpl. tauto.
    + rewrite window_of_analyze_request_other by assumption.
      destruct (IH client) as [Hsort Hb]. split; [assumption|].
      eapply Forall_impl; [exact Hb|]. simpl. intros x Hx. lra.
  - unfold window_of. rewrite train_security_model_windows. apply IH.
  - unfold window_of, reset_counters. simpl. rewrite lookup_fmap.
    destruct (ip_request_times self !! client); simpl; split; constructor.
  - destruct (IH client) as [Hsort Hb]. split; [assumption|].
    eapply Forall_impl; [exact Hb|]. simpl. intros x Hx. lra.
Qed.

Lemma accumulate_snoc (ths : list Threat) (th : Threat) :
  accumulate (ths ++ [th]) = (accumulate ths + threat_weight th)%float.
Proof.
  unfold accumulate. rewrite map_app, fold_left_app. reflexivity.
Qed.

(** The cases of the rule engine: which of the six rules fire. *)
Ltac rule_cases :=
  unfold heuristic_threats, rule_model, rule_user_agent, rule_request_rate,
    rule_endpoint, rule_method, rule_error_rate;
  destruct (first_match _ suspicious_user_agents);
  destruct (50 <? _)%nat;
  destruct (existsb _ suspicious_endpoints);
  destruct (bool_decide _);
  destruct (_ && _);
  (destruct (is_trained _); [destruct (flagged_by _ _)|]);
  cbn [fmap option_fmap option_map omap list_omap id app option_list
       accumulate map threat_weight fold_left mbind option_bind].

(** ** The assessment *)

(** C3: the risk score [analyze_request] returns lies in [0.0, 1.0], and
    [is_threat] is true exactly when that score is greater than 0.5, for
    every monitor state, clock reading and request. *)
Theorem risk_score_clamped_and_threshold (self : SecurityMonitor) (t : Q)
    (rq : RequestData) :
  let a := snd (analyze_request self t rq) in
  (0 <=? risk_score a)%float = true /\
  (risk_score a <=? 1)%float = true /\
  (is_threat a = true <-> (0.5 <? risk_score a)%float = true).
Proof.
  intros a. subst a. rewrite analyze_request_assessment.
  cbn [threats risk_score is_threat].
  rule_cases; vm_compute; intuition congruence.
Qed.

(** C8: the risk score [analyze_request] returns is positive exactly when
    its threat list is not empty.  The list holds one threat for each rule
    that fires, in rule order; every threat carries a positive weight; and
    the score is the sum of the weights of the listed threats, capped at
    1.0. *)
Theorem risk_positive_iff_threats (self : SecurityMonitor) (t : Q)
    (rq : RequestData) :
  let a := snd (analyze_request self t rq) in
  ((0 <? risk_score a)%float = true <-> threats a <> []) /\
  threats a =
    omap id [rule_user_agent rq; rule_request_rate self t rq; rule_endpoint rq;
             rule_method rq; rule_error_rate self rq; rule_model self t rq] /\
  Forall (fun th => (0 <? threat_weight th)%float = true) (threats a) /\
  risk_score a = py_min (accumulate (threats a)) 1.0%float.
Proof.
  intros a. subst a. rewrite analyze_request_assessment.
  cbn [threats risk_score is_threat].
  split; [|split; [|split; [|reflexivity]]].
  - rule_cases; split; intros Hx;
      first [ discriminate
            | vm_compute; reflexivity
            | vm_compute in Hx; discriminate
            | exfalso; apply Hx; reflexivity ].
  - rule_cases; reflexivity.
  - rule_cases; repeat constructor.
Qed.

(** C9: [analyze_request] appends the clock reading to the calling client's
    window and then prunes from the front, so the window it stores ends with
    that reading and has at least one entry; the guard of the model stage,
    trained and window size above 0, is then the trained flag alone, and a
    trained model is asked about the feature row on every call. *)
Theorem window_never_empty_model_always_asked (self : SecurityMonitor) (t : Q)
    (rq : RequestData) :
  let after := analyze_request self t rq in
  let w := window_of (fst after) (client_of rq) in
  w = popleft_while (t - 60)%Q (window_of self (client_of rq) ++ [t]) /\
  last w = Some t /\
  (1 <= length w)%nat /\
  is_trained self && (0 <? length w)%nat = is_trained self /\
  threats (snd after) =
    heuristic_threats self t rq ++
    (if is_trained self
     then option_list
            (MLAnomaly <$>
               flagged_by (security_model self) (ml_features self t rq))
     else []).
Proof.
  intros after w. subst after w.
  rewrite window_of_analyze_request, analyze_request_assessment.
  pose proof (window_after_nonempty self t rq) as Hn.
  destruct (window_after_keeps_now self t rq) as [kept Hk].
  split; [reflexivity|].
  split; [rewrite Hk; apply last_snoc|].
  split; [apply Nat.ltb_lt in Hn; lia|].
  split; [rewrite Hn; apply andb_true_r|].
  cbn [threats]. unfold rule_model.
  destruct (is_trained self); reflexivity.
Qed.

(** C2, as amended: when the clock has not run backwards, the window
    [analyze_request] stores for the calling client at time [t] is in
    ascending order and holds only timestamps from [t - 60] to [t], both
    ends included. *)
Theorem window_within_last_minute (self : SecurityMonitor) (now t : Q)
    (rq : RequestData) :
  served_until now self -> (now <= t)%Q ->
  let w := window_of (fst (analyze_request self t rq)) (client_of rq) in
  StronglySorted Qle w /\
  Forall (fun x => (t - 60 <= x)%Q /\ (x <= t)%Q) w.
Proof.
  intros Hs Hle w. subst w. rewrite window_of_analyze_request.
  destruct (served_windows now self Hs (client_of rq)) as [Hsort Hb].
  exact (record_window now t _ Hsort Hb Hle).
Qed.

(** C5: with a trained model and a window that is not empty after the
    record, [analyze_request] asks the model about the row [window size,
    len(user_agent), len(endpoint), status_code, score so far], where the
    score so far is the sum of the weights of the rules 1 to 5 that fired; if
    the model labels the row an outlier, one threat is appended to those of
    rules 1 to 5 and 0.5 is added to the accumulator, and otherwise the
    threats and the accumulator are those of rules 1 to 5. *)
Theorem model_stage_scores_feature_row (self : SecurityMonitor) (t : Q)
    (rq : RequestData) :
  is_trained self = true ->
  let after := analyze_request self t rq in
  let n := length (window_of (fst after) (client_of rq)) in
  n <> 0%nat ->
  let so_far := accumulate (heuristic_threats self t rq) in
  let x := [PyInt (Z.of_nat n);
            PyInt (Z.of_nat (String.length (user_agent_of rq)));
            PyInt (Z.of_nat (String.length (endpoint_of rq)));
            PyInt (status_of rq);
            PyFloat so_far] in
  match flagged_by (security_model self) x with
  | Some score =>
      threats (snd after) = heuristic_threats self t rq ++ [MLAnomaly score] /\
      risk_score (snd after) = py_min (so_far + 0.5) 1.0%float /\
      is_threat (snd after) = (0.5 <? so_far + 0.5)%float
  | None =>
      threats (snd after) = heuristic_threats self t rq /\
      risk_score (snd after) = py_min so_far 1.0%float /\
      is_threat (snd after) = (0.5 <? so_far)%float
  end.
Proof.
  intros Htr after n Hn so_far x. subst after n so_far x.
  rewrite window_of_analyze_request, analyze_request_assessment.
  cbn [threats risk_score is_threat]. unfold rule_model. rewrite Htr.
  fold (ml_features self t rq).
  destruct (flagged_by _ _) as [score|]; cbn [fmap option_fmap option_map option_list].
  - change (option_list (Some (MLAnomaly score))) with [MLAnomaly score].
    rewrite accumulate_snoc. cbn [threat_weight]. auto.
  - change (option_list (@None Threat)) with (@nil Threat).
    rewrite app_nil_r. auto.
Qed.

Lemma same_except_user_agent_rules (self : SecurityMonitor) (t : Q)
    (a b : RequestData) :
  same_except_user_agent a b ->
  rule_request_rate self t a = rule_request_rate self t b /\
  rule_endpoint a = rule_endpoint b /\
  rule_method a = rule_method b /\
  rule_error_rate self a = rule_error_rate self b.
Proof.
  destruct a, b. unfold same_except_user_agent. simpl.
  intros (-> & -> & -> & ->). repeat split; reflexivity.
Qed.

(** C4, as amended: with an untrained model, the same monitor state and the
    same clock reading, of two requests that differ only in the user agent,
    one with a denylisted substring and one without, the first has the threats
    of the second preceded by the user agent threat, a risk score of at least
    0.3 and at least the score of the second, and a risk score of at least
    the smaller of the second's score plus 0.3 and the cap 1.0, up to one
    rounding step of binary64 (2^-52). *)
Theorem flagged_user_agent_score (self : SecurityMonitor) (t : Q)
    (flagged plain : RequestData) :
  is_trained self = false ->
  rule_user_agent flagged <> None ->
  rule_user_agent plain = None ->
  same_except_user_agent flagged plain ->
  let f := snd (analyze_request self t flagged) in
  let p := snd (analyze_request self t plain) in
  (exists ua, threats f = SuspiciousUserAgent ua :: threats p) /\
  (0.3 <=? risk_score f)%float = true /\
  (risk_score p <=? risk_score f)%float = true /\
  (py_min (risk_score p + 0.3) 1.0 - risk_score f <=? 0x1p-52)%float = true.
Proof.
  intros Htr Hf Hp Hsame f p. subst f p.
  rewrite !analyze_request_assessment. cbn [threats risk_score].
  destruct (same_except_user_agent_rules self t _ _ Hsame) as (E2 & E3 & E4 & E5).
  unfold heuristic_threats, rule_model. rewrite Htr, Hp, E2, E3, E4, E5.
  unfold rule_user_agent in Hf.
  unfold rule_user_agent, rule_request_rate, rule_endpoint, rule_method,
    rule_error_rate.
  destruct (first_match _ suspicious_user_agents) as [ua|];
    [|exfalso; apply Hf; reflexivity].
  destruct (50 <? _)%nat;
  destruct (existsb _ suspicious_endpoints);
  destruct (bool_decide _);
  destruct (_ && _);
  cbn [fmap option_fmap option_map omap list_omap id app option_list
       accumulate map threat_weight fold_left mbind option_bind];
  (split; [exists ua; reflexivity|]); vm_compute; auto.
Qed.

(** ** The summary and the reset *)

Lemma length_bool_filter {A : Type} (p : A -> bool) (P : A -> Prop)
    `{forall x, Decision (P x)} (l : list A) :
  (forall x, p x = true <-> P x) ->
  length (List.filter p l) = length (filter P l).
Proof.
  intros Hp. induction l as [|x l IH]; [reflexivity|].
  rewrite filter_cons. simpl.
  destruct (p x) eqn:E; destruct (decide (P x)) as [HP|HP]; simpl.
  - congruence.
  - apply Hp in E. contradiction.
  - apply Hp in HP. congruence.
  - exact IH.
Qed.

(** Counting the items that pass a test gives the size of the filtered
    dictionary. *)
Lemma count_items_size (p : list Q -> bool) (P : string * list Q -> Prop)
    `{forall x, Decision (P x)} (d : gmap string (list Q)) :
  (forall item, p (snd item) = true <-> P item) ->
  count_items p d = size (filter P d).
Proof.
  intros Hp. unfold count_items.
  change (map (fun _ => 1%nat)) with (fmap (M:=list) (fun _ : string * list Q => 1%nat)).
  rewrite sum_list_fmap_const, Nat.mul_1_r.
  rewrite (length_bool_filter _ P) by (intros x; apply Hp).
  rewrite map_filter_alt, map_size_list_to_map; [reflexivity|].
  apply (sublist_NoDup _ (map_to_list d).*1).
  - apply NoDup_fst_map_to_list.
  - apply fmap_sublist, sublist_filter.
Qed.

(** C7, as amended: the high-risk count of the summary is the number of
    clients whose stored window has more than 50 entries, whatever the time
    of the query; a stored window is the one left by that client's latest
    request and is not pruned again by the summary. *)
Theorem high_risk_ips_counts_stored_windows (self : SecurityMonitor) (now : Q) :
  high_risk_ips (get_security_summary self now)
  = high_activity_clients_stored self.
Proof.
  unfold get_security_summary, high_activity_clients_stored. simpl.
  apply count_items_size. intros item.
  unfold max_requests_per_ip_per_minute. apply Nat.ltb_lt.
Qed.

(** C10: [reset_counters] empties the request counts, every client's
    window, the user agent counts, the suspicious patterns and the error
    counters, and leaves the model and the trained flag as they were: a
    model trained before the reset is asked about every request after it. *)
Theorem reset_keeps_trained_model (self : SecurityMonitor) :
  let r := reset_counters self in
  ip_request_counts r = ∅ /\
  (forall client, window_of r client = []) /\
  dom (ip_request_times r) = dom (ip_request_times self) /\
  user_agents r = ∅ /\
  suspicious_patterns r = [] /\
  (forall key, error_count r key = 0%nat) /\
  security_model r = security_model self /\
  is_trained r = is_trained self /\
  forall t rq,
    threats (snd (analyze_request r t rq)) =
      heuristic_threats r t rq ++
      (if is_trained self
       then option_list
              (MLAnomaly <$>
                 flagged_by (security_model self) (ml_features r t rq))
       else []).
Proof.
  intros r. subst r.
  split; [reflexivity|].
  split.
  { intros client. unfold window_of, reset_counters. simpl.
    rewrite lookup_fmap. destruct (_ !! client); reflexivity. }
  split; [apply dom_fmap_L|].
  split; [reflexivity|].
  split; [reflexivity|].
  split.
  { intros key. unfold error_count, reset_counters. simpl.
    destruct (error_counts self); simpl; rewrite lookup_empty; reflexivity. }
  split; [reflexivity|].
  split; [reflexivity|].
  intros t rq. rewrite analyze_request_assessment. cbn [threats].
  unfold rule_model. simpl.
  destruct (is_trained self); reflexivity.
Qed.

(** ** Training the security model *)

(** With fewer than 10 samples [train_security_model] returns [False] and
    the monitor, its model and trained flag included, is as before. *)
Lemma train_security_model_too_few (self : SecurityMonitor)
    (data : list HistoricalData) :
  (length data < 10)%nat ->
  train_security_model self data = (self, false).
Proof.
  intros Hlen. unfold train_security_model. rewrite length_map.
  apply Nat.ltb_lt in Hlen. rewrite Hlen. reflexivity.
Qed.

Lemma served_analyze_times (n : nat) (t : Q) (self : SecurityMonitor)
    (rq : RequestData) :
  served_until t self -> served_until t (analyze_times n self t rq).
Proof.
  revert self. induction n as [|n IH]; intros self Hs; simpl; [exact Hs|].
  apply IH. apply (served_analyze t t self rq Hs). apply Qle_refl.
Qed.

End SecurityProperties.

(** ** The metrics detector *)

Section MetricsProperties.
Context `{IsolationForestImpl} `{StandardScalerImpl}.

Lemma detect_anomaly_untrained (g : Service) (now : Q) (x : MetricsData) :
  is_model_trained g = false ->
  detect_anomaly g now x = (g, HTTPException 400 "Model not trained yet").
Proof. intros E. unfold detect_anomaly. rewrite E. reflexivity. Qed.


Lemma detect_anomaly_frame (g : Service) (now : Q) (x : MetricsData) :
  is_model_trained (fst (detect_anomaly g now x)) = is_model_trained g /\
  isolation_forest (fst (detect_anomaly g now x)) = isolation_forest g.
Proof.
  unfold detect_anomaly. repeat case_match; simpl; auto.
Qed.

Lemma handle_flag (g : Service) (c : ServiceCall) :
  forest_ready g ->
  forest_ready (fst (handle g c)) /\
  is_model_trained (fst (handle g c))
  = is_model_trained g || train_succeeded (snd (handle g c)).
Proof.
  intros Hr. destruct c as [|data|now x]; simpl.
  - split; [intros _; eexists; reflexivity|]. rewrite orb_false_r. reflexivity.
  - unfold train_model.
    destruct (fit_transform _ _) as [sc [scaled|e]]; simpl.
    + destruct (isolation_forest g) as [forest|] eqn:F; simpl.
      * destruct (forest_fit _ _) as [forest' [u|e]]; simpl.
        -- split; [intros _; eexists; reflexivity|]. rewrite orb_true_r. reflexivity.
        -- split; [intros _; eexists; reflexivity|]. rewrite orb_false_r. reflexivity.
      * split; [|rewrite orb_false_r; reflexivity].
        intros E. simpl in E. destruct (Hr E) as [f Hf]. congruence.
    + split; [|rewrite orb_false_r; reflexivity].
      intros E. simpl in *. exact (Hr E).
  - destruct (detect_anomaly_frame g now x) as [E F].
    destruct (detect_anomaly g now x) as [g' r]. simpl in *.
    split; [|rewrite orb_false_r; exact E].
    unfold forest_ready. rewrite E, F. exact Hr.
Qed.

Lemma serve_flag (calls : list ServiceCall) (g : Service) :
  forest_ready g ->
  forest_ready (fst (serve g calls)) /\
  is_model_trained (fst (serve g calls))
  = is_model_trained g || existsb train_succeeded (snd (serve g calls)).
Proof.
  revert g. induction calls as [|c calls IH]; intros g Hr; simpl.
  - split; [exact Hr|]. rewrite orb_false_r. reflexivity.
  - destruct (handle_flag g c Hr) as [Hr1 E1].
    destruct (handle g c) as [g1 r]. simpl in *.
    destruct (IH g1 Hr1) as [Hr2 E2].
    destruct (serve g1 calls) as [g2 rs]. simpl in *.
    split; [exact Hr2|]. rewrite E2, E1, orb_assoc. reflexivity.
Qed.


(** C1, the metrics route: [train_model] never looks at the size of the
    batch.  Whenever the scaler and the forest accept the batch, it installs
    both, sets the trained flag and answers with success. *)
Theorem train_model_ignores_batch_size (g : Service) (data : list MetricsData)
    (forest forest' : Forest) (scaler' : Scaler) (scaled : list Row) (u : unit) :
  isolation_forest g = Some forest ->
  fit_transform (scaler g) (map metric_row data) = (scaler', Ok scaled) ->
  forest_fit forest scaled = (forest', Ok u) ->
  train_model g data =
  ({| isolation_forest := Some forest';
      scaler := scaler';
      training_data := scaled;
      is_model_trained := true;
      anomaly_counter := anomaly_counter g |},
   Response {| message := "Model trained successfully";
               samples := length data |}).
Proof.
  intros F S1 S2. unfold train_model. rewrite S1, F, S2. reflexivity.
Qed.

End MetricsProperties.

(** ** Runs on concrete inputs *)

(** Two requests at times 0 and 30, then one at 70: the entry at 0 is
    dropped and the window is [30; 70]. *)
Lemma window_within_last_minute_third_request :
  let self :=
    fst (analyze_request (fst (analyze_request new_SecurityMonitor 0 plain_login))
           30 plain_login) in
  let w := window_of (fst (analyze_request self 70 plain_login)) "1.2.3.4" in
  w = [30; 70]%Q /\
  StronglySorted Qle w /\
  Forall (fun x => (70 - 60 <= x)%Q /\ (x <= 70)%Q) w.
Proof.
  split; [vm_compute; reflexivity|].
  apply (window_within_last_minute _ 30 70 plain_login).
  - apply (served_analyze 0 30); [|discriminate].
    apply (served_analyze 0 0); [apply served_new|discriminate].
  - discriminate.
Defined.

(** C2, as stated, fails: after requests at times 0 and 60 the window still
    holds 0, which is not greater than 60 - 60. *)
Lemma window_keeps_entry_one_minute_old :
  ~ (forall (self : SecurityMonitor) (now t : Q) (rq : RequestData) (x : Q),
       served_until now self -> (now <= t)%Q ->
       In x (window_of (fst (analyze_request self t rq)) (client_of rq)) ->
       (t - 60 < x)%Q /\ (x <= t)%Q).
Proof.
  intros Hc.
  destruct (Hc (fst (analyze_request new_SecurityMonitor 0 plain_login))
              0%Q 60%Q plain_login 0%Q) as [Hlt _].
  - apply (served_analyze 0 0); [apply served_new|discriminate].
  - discriminate.
  - vm_compute. left. reflexivity.
  - vm_compute in Hlt. discriminate Hlt.
Qed.

(** On a fresh monitor, two TRACE requests to /debug: the plain one scores
    0.2 + 0.1 and the one sent by sqlmap 0.3 + 0.2 + 0.1, which is one
    rounding step below the plain score plus 0.3. *)
Lemma flagged_user_agent_score_debug_trace :
  let f := snd (analyze_request new_SecurityMonitor 0 sqlmap_debug_trace) in
  let p := snd (analyze_request new_SecurityMonitor 0 plain_debug_trace) in
  (risk_score p = 0.30000000000000004 /\ risk_score f = 0.6)%float /\
  (exists ua, threats f = SuspiciousUserAgent ua :: threats p) /\
  (0.3 <=? risk_score f)%float = true /\
  (risk_score p <=? risk_score f)%float = true /\
  (py_min (risk_score p + 0.3) 1.0 - risk_score f <=? 0x1p-52)%float = true.
Proof.
  split; [split; vm_compute; reflexivity|].
  apply (flagged_user_agent_score new_SecurityMonitor 0
           sqlmap_debug_trace plain_debug_trace).
  - reflexivity.
  - vm_compute. discriminate.
  - vm_compute. reflexivity.
  - repeat split.
Defined.

(** C4, as stated, fails: after 50 failed requests to /admin, the next plain
    one scores 0.4 + 0.2 + 0.3 and the one sent by sqlmap is capped at 1.0,
    less than the plain score plus 0.3. *)
Lemma capped_score_gap_below_user_agent_weight :
  ~ (forall (self : SecurityMonitor) (t : Q) (flagged plain : RequestData),
       is_trained self = false ->
       rule_user_agent flagged <> None ->
       rule_user_agent plain = None ->
       same_except_user_agent flagged plain ->
       (risk_score (snd (analyze_request self t plain)) + 0.3 <=?
        risk_score (snd (analyze_request self t flagged)))%float = true).
Proof.
  intros Hc.
  specialize (Hc (analyze_times 50 new_SecurityMonitor 0 plain_admin_error) 0%Q
                sqlmap_admin_error plain_admin_error).
  assert (Hgap : (risk_score (snd (analyze_request
                    (analyze_times 50 new_SecurityMonitor 0 plain_admin_error)
                    0 plain_admin_error)) + 0.3 <=?
                  risk_score (snd (analyze_request
                    (analyze_times 50 new_SecurityMonitor 0 plain_admin_error)
                    0 sqlmap_admin_error)))%float = false)
    by (vm_compute; reflexivity).
  rewrite Hc in Hgap.
  - discriminate Hgap.
  - vm_compute. reflexivity.
  - vm_compute. discriminate.
  - vm_compute. reflexivity.
  - repeat split.
Qed.

(** A monitor trained on rows with one request per minute: the second
    request of a client within a minute gives a window of 2, the stand-in
    model labels the row an outlier, and 0.5 is added to a score of 0.0. *)
Lemma model_stage_flags_second_request :
  let self := fst (analyze_request trained_monitor 0 plain_login) in
  let after := analyze_request self 1 plain_login in
  flagged_by (security_model self)
    [PyInt 2; PyInt 8; PyInt 6; PyInt 200; PyFloat 0] = Some (-0.1)%float /\
  threats (snd after) = [MLAnomaly (-0.1)] /\
  risk_score (snd after) = 0.5%float /\
  is_threat (snd after) = false.
Proof.
  split; [vm_compute; reflexivity|].
  pose proof (model_stage_scores_feature_row
                (fst (analyze_request trained_monitor 0 plain_login)) 1
                plain_login eq_refl) as Hw.
  cbv zeta in Hw.
  assert (Hn : length (window_of
                 (fst (analyze_request
                    (fst (analyze_request trained_monitor 0 plain_login)) 1
                    plain_login)) (client_of plain_login)) <> 0%nat)
    by (vm_compute; discriminate).
  specialize (Hw Hn). vm_compute in Hw. vm_compute. exact Hw.
Defined.

(** C7, as stated, fails: a client that sent 51 requests at time 0 and none
    since is still counted at time 1000, when its window pruned to the last
    60 seconds is empty. *)
Lemma summary_counts_windows_not_pruned :
  ~ (forall (self : SecurityMonitor) (now : Q),
       served_until now self ->
       high_risk_ips (get_security_summary self now)
       = high_activity_clients_pruned self now).
Proof.
  intros Hc.
  specialize (Hc (analyze_times 51 new_SecurityMonitor 0 plain_login) 1000%Q).
  assert (Hs : served_until 1000
                 (analyze_times 51 new_SecurityMonitor 0 plain_login)).
  { apply (served_later 0 1000); [|discriminate].
    apply served_analyze_times, served_new. }
  specialize (Hc Hs). vm_compute in Hc. discriminate Hc.
Qed.

(** Nine samples, fewer than the ten the security route asks for: the
    metrics route trains on them and sets its flag. *)
Lemma train_model_nine_samples :
  let g := startup_event module_globals in
  (length nine_samples < 10)%nat /\
  is_model_trained g = false /\
  is_model_trained (fst (train_model g nine_samples)) = true /\
  snd (train_model g nine_samples) =
    Response {| message := "Model trained successfully"; samples := 9 |}.
Proof.
  pose proof (train_model_ignores_batch_size (startup_event module_globals)
                nine_samples None (Some 0%Z) true
                (map metric_row nine_samples) tt
                eq_refl eq_refl eq_refl) as Hw.
  cbv zeta. rewrite Hw. repeat split. vm_compute. lia.
Defined.

(** Below the cap the gap can also fall short of 0.3 by rounding alone:
    0.2 + 0.1 + 0.3 is 0.6000000000000001 and 0.3 + 0.2 + 0.1 is 0.6. *)
Lemma rounded_score_gap_below_user_agent_weight :
  let f := snd (analyze_request new_SecurityMonitor 0 sqlmap_debug_trace) in
  let p := snd (analyze_request new_SecurityMonitor 0 plain_debug_trace) in
  (risk_score p + 0.3 <=? risk_score f)%float = false.
Proof. vm_compute. reflexivity. Qed.

(** The scenarios of the design document. *)

Example scenario_sqlmap_login :
  snd (analyze_request new_SecurityMonitor 0 sqlmap_login) =
  {| threats := [SuspiciousUserAgent "sqlmap"];
     risk_score := 0.3;
     is_threat := false;
     ta_client_ip := "1.2.3.4";
     ta_timestamp := 0;
     ta_user_agent := "sqlmap/1.0";
     ta_endpoint := "/login";
     ta_method := "GET";
     ta_status_code := 200 |}.
Proof. vm_compute. reflexivity. Qed.

Example scenario_51st_request :
  let a := snd (analyze_request
                  (analyze_times 50 new_SecurityMonitor 0 sqlmap_login)
                  10 sqlmap_login) in
  threats a = [SuspiciousUserAgent "sqlmap"; HighRequestRate 51] /\
  risk_score a = 0.7%float /\
  is_threat a = true.
Proof. vm_compute. repeat split. Qed.

Example user_agent_match_ignores_case :
  rule_user_agent (request "1.2.3.4" "Mozilla/5.0 (GoogleBot)" "/" "GET" 200)
  = Some (SuspiciousUserAgent "bot").
Proof. vm_compute. reflexivity. Qed.

Example detect_before_training :
  snd (detect_anomaly (startup_event module_globals) 0 (metrics_sample 0.5))
  = HTTPException 400 "Model not trained yet".
Proof. reflexivity. Qed.

Example train_security_model_nine_entries :
  train_security_model trained_monitor (replicate 9 (history_entry 8 6 200))
  = (trained_monitor, false).
Proof. apply train_security_model_too_few. vm_compute. lia. Qed.

(** * Further properties of the tracker *)

Section TrackerProperties.
Context `{IsolationForestImpl}.

Lemma filter_all_kept (p : Q -> bool) (l : list Q) :
  Forall (fun x => p x = true) l -> List.filter p l = l.
Proof.
  induction 1 as [|x l Hx Hl IH]; simpl; [reflexivity|].
  rewrite Hx, IH. reflexivity.
Qed.

(** On an ascending window the prefix trim drops exactly the entries older
    than [m]. *)
Lemma popleft_while_sorted_filter (m : Q) (w : list Q) :
  StronglySorted Qle w ->
  popleft_while m w = List.filter (fun x => negb (Qltb x m)) w.
Proof.
  induction 1 as [|a l Hs IH Ha]; simpl; [reflexivity|].
  destruct (Qltb a m) eqn:E; simpl; [exact IH|].
  f_equal. symmetry. apply filter_all_kept.
  eapply Forall_impl; [exact Ha|]. simpl. intros x Hx.
  apply negb_true_iff, Qltb_false. apply Qltb_false in E.
  eapply Qle_trans; eassumption.
Qed.

(** X1: when the clock has not run backwards, the window [analyze_request]
    stores for the caller at time [t] is the old window without the entries
    older than [t - 60], in their order, followed by [t]. *)
Theorem recorded_window_is_filtered (self : SecurityMonitor) (now t : Q)
    (rq : RequestData) :
  served_until now self -> (now <= t)%Q ->
  window_of (fst (analyze_request self t rq)) (client_of rq)
  = List.filter (fun x => negb (Qltb x (t - 60)%Q))
      (window_of self (client_of rq)) ++ [t].
Proof.
  intros Hs Hle. rewrite window_of_analyze_request. unfold window_after.
  destruct (served_windows now self Hs (client_of rq)) as [Hsort Hb].
  rewrite popleft_while_sorted_filter.
  - rewrite List.filter_app. simpl. rewrite now_not_old. reflexivity.
  - apply StronglySorted_snoc; [assumption|].
    eapply Forall_impl; [exact Hb|]. simpl. intros x Hx. lra.
Qed.

Lemma train_security_model_frame (self : SecurityMonitor)
    (data : list HistoricalData) :
  let self' := fst (train_security_model self data) in
  ip_request_counts self' = ip_request_counts self /\
  ip_request_times self' = ip_request_times self /\
  user_agents self' = user_agents self /\
  suspicious_patterns self' = suspicious_patterns self /\
  error_counts self' = error_counts self.
Proof.
  unfold train_security_model.
  destruct (_ <? 10)%nat; [repeat split|].
  destruct (forest_fit _ _) as [fitted [u|e]]; repeat split.
Qed.


Lemma request_count_of_analyze_request (self : SecurityMonitor) (t : Q)
    (rq : RequestData) (client : string) :
  request_count_of (fst (analyze_request self t rq)) client
  = if decide (client = client_of rq)
    then S (request_count_of self client)
    else request_count_of self client.
Proof.
  rewrite analyze_request_state. unfold request_count_of. simpl.
  destruct (decide (client = client_of rq)) as [->|Hne].
  - rewrite lookup_insert_eq. reflexivity.
  - rewrite lookup_insert_ne by congruence. reflexivity.
Qed.


Lemma sum_list_perm (l l' : list nat) :
  l ≡ₚ l' -> sum_list l = sum_list l'.
Proof.
  induction 1; simpl; lia.
Qed.

Lemma sum_values_insert (m : gmap string nat) (k : string) (v : nat) :
  m !! k = None ->
  sum_list (map snd (map_to_list (<[k := v]> m)))
  = (v + sum_list (map snd (map_to_list m)))%nat.
Proof.
  intros Hk.
  rewrite (sum_list_perm _ (map snd ((k, v) :: map_to_list m))).
  - reflexivity.
  - change (map snd) with (fmap (M:=list) (@snd string nat)).
    apply fmap_Permutation, map_to_list_insert, Hk.
Qed.

Lemma sum_values_bump (m : gmap string nat) (k : string) :
  sum_list (map snd (map_to_list (<[k := S (default 0%nat (m !! k))]> m)))
  = S (sum_list (map snd (map_to_list m))).
Proof.
  destruct (m !! k) as [v|] eqn:E; simpl.
  - rewrite <- (insert_delete_eq m k (S v)).
    rewrite <- (insert_delete_id m k v E) at 2.
    rewrite !sum_values_insert by apply lookup_delete_eq. lia.
  - rewrite sum_values_insert by exact E. lia.
Qed.

(** X3: every [analyze_request] call raises the total the summary reports by
    exactly one, whoever the client is and whatever the request. *)
Theorem total_requests_tracked_counts_calls (self : SecurityMonitor)
    (t now now' : Q) (rq : RequestData) :
  total_requests_tracked
    (get_security_summary (fst (analyze_request self t rq)) now')
  = S (total_requests_tracked (get_security_summary self now)).
Proof.
  rewrite analyze_request_state. simpl. apply sum_values_bump.
Qed.


End TrackerProperties.

Section ThreatMembership.
Context `{IsolationForestImpl}.

(** A threat is in the returned list exactly when one of the six rules
    reports it. *)
Lemma in_threats (self : SecurityMonitor) (t : Q) (rq : RequestData)
    (th : Threat) :
  In th (threats (snd (analyze_request self t rq))) <->
  rule_user_agent rq = Some th \/
  rule_request_rate self t rq = Some th \/
  rule_endpoint rq = Some th \/
  rule_method rq = Some th \/
  rule_error_rate self rq = Some th \/
  rule_model self t rq = Some th.
Proof.
  rewrite analyze_request_assessment. cbn [threats].
  unfold heuristic_threats.
  destruct (rule_user_agent rq) as [a1|];
  destruct (rule_request_rate self t rq) as [a2|];
  destruct (rule_endpoint rq) as [a3|];
  destruct (rule_method rq) as [a4|];
  destruct (rule_error_rate self rq) as [a5|];
  destruct (rule_model self t rq) as [a6|];
  simpl; intuition congruence.
Qed.

Lemma high_request_rate_reported (self : SecurityMonitor) (t : Q)
    (rq : RequestData) (k : nat) :
  In (HighRequestRate k) (threats (snd (analyze_request self t rq))) <->
  k = length (window_after self t rq) /\ (50 < k)%nat.
Proof.
  rewrite in_threats.
  unfold rule_user_agent, rule_request_rate, rule_endpoint, rule_method,
    rule_error_rate, rule_model.
  destruct (first_match _ suspicious_user_agents);
  destruct (50 <? length (window_after self t rq))%nat eqn:E;
  destruct (existsb _ suspicious_endpoints);
  destruct (bool_decide _);
  destruct (_ && _);
  (destruct (is_trained self); [destruct (flagged_by _ _)|]);
  simpl;
  first [ apply Nat.ltb_lt in E | apply Nat.ltb_ge in E ];
  (split; [intros Hin; decompose [or] Hin; try discriminate;
           try (match goal with
                | Hx : Some (HighRequestRate _) = Some (HighRequestRate _) |- _ =>
                    injection Hx as <-
                end; split; [reflexivity|lia])
          |intros [-> Hk]; first [lia | tauto]]).
Qed.

Lemma high_error_rate_reported (self : SecurityMonitor) (t : Q)
    (rq : RequestData) :
  In (HighErrorRate (client_of rq) (endpoint_of rq))
     (threats (snd (analyze_request self t rq))) <->
  (400 <= status_of rq)%Z /\ (10 <= error_count self (error_key rq))%nat.
Proof.
  rewrite in_threats.
  unfold rule_user_agent, rule_request_rate, rule_endpoint, rule_method,
    rule_error_rate, rule_model.
  destruct (first_match _ suspicious_user_agents);
  destruct (50 <? length (window_after self t rq))%nat;
  destruct (existsb _ suspicious_endpoints);
  destruct (bool_decide _);
  destruct (400 <=? status_of rq)%Z eqn:E4;
  destruct (10 <? S (error_count self (error_key rq)))%nat eqn:E10;
  (destruct (is_trained self); [destruct (flagged_by _ _)|]);
  simpl;
  first [ apply Z.leb_le in E4 | apply Z.leb_gt in E4 ];
  first [ apply Nat.ltb_lt in E10 | apply Nat.ltb_ge in E10 ];
  (split; [intros Hin; decompose [or] Hin; try discriminate; split; lia
          |intros [H4 H10]; first [lia | tauto]]).
Qed.

End ThreatMembership.

Section BurstAndSummary.
Context `{IsolationForestImpl}.

Lemma analyze_times_same_instant (n k : nat) (t : Q) (self : SecurityMonitor)
    (rq : RequestData) :
  window_of self (client_of rq) = replicate k t ->
  window_of (analyze_times n self t rq) (client_of rq) = replicate (k + n) t /\
  request_count_of (analyze_times n self t rq) (client_of rq)
  = (request_count_of self (client_of rq) + n)%nat.
Proof.
  revert k self. induction n as [|n IH]; intros k self Hw; simpl.
  - rewrite Nat.add_0_r. split; [exact Hw|lia].
  - destruct (IH (S k) (fst (analyze_request self t rq))) as [E1 E2].
    + rewrite window_of_analyze_request. unfold window_after.
      rewrite Hw, <- replicate_S_end. simpl.
      rewrite now_not_old. reflexivity.
    + rewrite E1, E2, request_count_of_analyze_request.
      destruct (decide _) as [_|Hne]; [|contradiction].
      split; [f_equal; lia|lia].
Qed.

(** X5: when a client new to a fresh monitor sends requests at one instant,
    the monitor holds one window entry and one count per request, and the
    next request is reported with a high request rate exactly from the 51st
    request on; the rate it reports is the number of requests so far. *)
Theorem burst_flagged_from_51st_request (n : nat) (t : Q) (rq : RequestData) :
  let self := analyze_times n new_SecurityMonitor t rq in
  window_of self (client_of rq) = replicate n t /\
  request_count_of self (client_of rq) = n /\
  forall k,
    In (HighRequestRate k) (threats (snd (analyze_request self t rq))) <->
    k = S n /\ (50 <= n)%nat.
Proof.
  intros self. subst self.
  destruct (analyze_times_same_instant n 0 t new_SecurityMonitor rq) as [E1 E2].
  { unfold window_of. simpl. rewrite lookup_empty. reflexivity. }
  simpl in E1. split; [exact E1|]. split.
  { rewrite E2. unfold request_count_of. simpl. rewrite lookup_empty.
    reflexivity. }
  intros k. rewrite high_request_rate_reported. unfold window_after.
  rewrite E1, <- replicate_S_end. simpl. rewrite now_not_old. simpl.
  rewrite length_replicate. split; intros [-> Hk]; split; lia.
Qed.

Lemma count_items_none (p : list Q -> bool) (d : gmap string (list Q)) :
  (forall client w, d !! client = Some w -> p w = false) ->
  count_items p d = 0%nat.
Proof.
  intros Hp. unfold count_items.
  assert (Hall : Forall (fun item : string * list Q => p (snd item) = false)
                   (map_to_list d)).
  { apply Forall_forall. intros [client w] Hin. simpl.
    apply (Hp client). apply elem_of_map_to_list. exact Hin. }
  induction Hall as [|item l Hi Hl IH]; simpl; [reflexivity|].
  rewrite Hi. exact IH.
Qed.

(** X6: right after [reset_counters] the summary reports no active client,
    no high-risk client, no tracked request and no pattern, and still
    reports the trained flag as it was; resetting twice is resetting once. *)
Theorem summary_after_reset (self : SecurityMonitor) (now : Q) :
  get_security_summary (reset_counters self) now =
  {| active_ips := 0;
     high_risk_ips := 0;
     total_requests_tracked := 0;
     model_trained := is_trained self;
     suspicious_patterns_count := 0 |} /\
  reset_counters (reset_counters self) = reset_counters self.
Proof.
  split.
  - unfold get_security_summary, reset_counters. cbn [ip_request_times
      ip_request_counts is_trained suspicious_patterns].
    rewrite !count_items_none.
    + rewrite map_to_list_empty. reflexivity.
    + intros client w. rewrite lookup_fmap.
      destruct (_ !! client); simpl; [|discriminate].
      intros [= <-]. reflexivity.
    + intros client w. rewrite lookup_fmap.
      destruct (_ !! client); simpl; [|discriminate].
      intros [= <-]. reflexivity.
  - unfold reset_counters. cbn [ip_request_times ip_request_counts is_trained
      suspicious_patterns security_model error_counts user_agents].
    rewrite <- map_fmap_compose.
    destruct (error_counts self); reflexivity.
Qed.

Lemma monitor_handle_keeps_recent (t : Q) (client : string)
    (self : SecurityMonitor) (c : MonitorCall) :
  call_not_before t c ->
  (exists kept newest,
     ip_request_times self !! client = Some (kept ++ [newest]) /\
     (t <= newest)%Q) ->
  exists kept newest,
    ip_request_times (fst (monitor_handle self c)) !! client
    = Some (kept ++ [newest]) /\
    (t <= newest)%Q.
Proof.
  intros Hc (kept & newest & Hw & Hle).
  destruct c as [t' rq|data|t'|]; simpl in *.
  - pose proof (analyze_request_state self t' rq) as E.
    destruct (analyze_request self t' rq) as [self' a]. simpl in *.
    rewrite E. simpl.
    destruct (decide (client = client_of rq)) as [->|Hne].
    + rewrite lookup_insert_eq.
      destruct (window_after_keeps_now self t' rq) as [kept' ->].
      exists kept', t'. split; [reflexivity|exact Hc].
    + rewrite lookup_insert_ne by congruence.
      exists kept, newest. split; assumption.
  - pose proof (train_security_model_frame self data) as (_ & Et & _).
    destruct (train_security_model self data) as [self' ok]. simpl in *.
    rewrite Et. exists kept, newest. split; assumption.
  - exists kept, newest. split; assumption.
  - contradiction.
Qed.

Lemma monitor_serve_keeps_recent (t : Q) (client : string)
    (calls : list MonitorCall) (self : SecurityMonitor) :
  Forall (call_not_before t) calls ->
  (exists kept newest,
     ip_request_times self !! client = Some (kept ++ [newest]) /\
     (t <= newest)%Q) ->
  exists kept newest,
    ip_request_times (fst (monitor_serve self calls)) !! client
    = Some (kept ++ [newest]) /\
    (t <= newest)%Q.
Proof.
  intros Hall. revert self.
  induction Hall as [|c calls Hc Hall IH]; intros self Hw; simpl; [exact Hw|].
  pose proof (monitor_handle_keeps_recent t client self c Hc Hw) as H1.
  destruct (monitor_handle self c) as [self1 r]. simpl in H1.
  specialize (IH self1 H1).
  destruct (monitor_serve self1 calls) as [self2 rs]. exact IH.
Qed.

(** X7: a client whose request was analysed at time [t] counts as active in
    every summary taken less than 60 seconds after [t], whatever calls were
    made in between, as long as none of them is a reset and none reads the
    clock before [t]. *)
Theorem caller_is_active (self : SecurityMonitor) (t now : Q)
    (rq : RequestData) (calls : list MonitorCall) :
  Forall (call_not_before t) calls ->
  (now - 60 < t)%Q ->
  let later := fst (monitor_serve (fst (analyze_request self t rq)) calls) in
  recently_active (now - 60)%Q (window_of later (client_of rq)) = true /\
  (1 <= active_ips (get_security_summary later now))%nat.
Proof.
  intros Hall Hlt later.
  destruct (monitor_serve_keeps_recent t (client_of rq) calls
              (fst (analyze_request self t rq)) Hall)
    as (kept & newest & Hw & Hle).
  { destruct (window_after_keeps_now self t rq) as [kept Hk].
    exists kept, t. split; [|apply Qle_refl].
    rewrite analyze_request_state. simpl. rewrite lookup_insert_eq, Hk.
    reflexivity. }
  fold later in Hw.
  assert (Hact : recently_active (now - 60)%Q (kept ++ [newest]) = true).
  { unfold recently_active. rewrite last_snoc. apply Qltb_true. lra. }
  split; [unfold window_of; rewrite Hw; exact Hact|].
  unfold get_security_summary. cbn [active_ips].
  rewrite (count_items_size _
             (fun item => recently_active (now - 60)%Q (snd item) = true))
    by (intros item; reflexivity).
  assert (Hne : size (filter
                        (fun item : string * list Q =>
                           recently_active (now - 60)%Q (snd item) = true)
                        (ip_request_times later))
                <> 0%nat); [|lia].
  eapply (map_size_ne_0_lookup_2 _ (client_of rq)).
  exists (kept ++ [newest]). apply map_lookup_filter_Some. split.
  - exact Hw.
  - exact Hact.
Qed.

End BurstAndSummary.

Section TrainingAndErrors.
Context `{IsolationForestImpl}.

(** X8: [train_security_model] returns [True] exactly when it is given at
    least 10 entries and the fit does not raise; it then installs the fitted
    model and sets the trained flag.  Whatever it returns, it leaves the
    request counts, the windows and the error counters as they were, it never
    clears the flag, and with fewer than 10 entries it does not touch the
    model. *)
Theorem train_security_model_outcome (self : SecurityMonitor)
    (data : list HistoricalData) :
  let result := train_security_model self data in
  let fit := forest_fit (security_model self) (map feature_vector data) in
  (snd result = true <->
   (10 <= length data)%nat /\ exists u, snd fit = Ok u) /\
  (snd result = true -> security_model (fst result) = fst fit) /\
  ((length data < 10)%nat -> security_model (fst result) = security_model self) /\
  is_trained (fst result) = is_trained self || snd result /\
  ip_request_counts (fst result) = ip_request_counts self /\
  ip_request_times (fst result) = ip_request_times self /\
  error_counts (fst result) = error_counts self.
Proof.
  intros result fit. subst result fit. unfold train_security_model.
  rewrite length_map.
  destruct (length data <? 10)%nat eqn:E;
    [apply Nat.ltb_lt in E | apply Nat.ltb_ge in E]; simpl.
  - rewrite orb_false_r. repeat split; try reflexivity; try discriminate.
    intros [Hlen _]. lia.
  - destruct (forest_fit _ _) as [fitted [u|e]]; simpl.
    + rewrite orb_true_r. repeat split; try reflexivity; try lia.
      exists u. reflexivity.
    + rewrite orb_false_r. repeat split; try reflexivity; try discriminate;
        try lia.
      intros [_ [u Hu]]. discriminate Hu.
Qed.

Lemma monitor_handle_flag (self : SecurityMonitor) (c : MonitorCall) :
  is_trained (fst (monitor_handle self c))
  = is_trained self || train_returned_true (snd (monitor_handle self c)).
Proof.
  destruct c as [t rq|data| t|]; simpl.
  - pose proof (analyze_request_state self t rq) as E.
    destruct (analyze_request self t rq) as [self' a]. simpl in *.
    rewrite E. simpl. rewrite orb_false_r. reflexivity.
  - unfold train_security_model.
    destruct (_ <? 10)%nat; simpl; [rewrite orb_false_r; reflexivity|].
    destruct (forest_fit _ _) as [fitted [u|e]]; simpl.
    + rewrite orb_true_r. reflexivity.
    + rewrite orb_false_r. reflexivity.
  - rewrite orb_false_r. reflexivity.
  - rewrite orb_false_r. reflexivity.
Qed.

(** X9: over any sequence of calls on a monitor (analyses, trainings,
    summaries, resets), the trained flag at the end is set exactly when it
    was set at the start or some training call returned [True]; no call,
    [reset_counters] included, ever clears it, and the summary reports it. *)
Theorem trained_flag_is_never_cleared (self : SecurityMonitor)
    (calls : list MonitorCall) (now : Q) :
  let final := fst (monitor_serve self calls) in
  let replies := snd (monitor_serve self calls) in
  is_trained final = is_trained self || existsb train_returned_true replies /\
  model_trained (get_security_summary final now) = is_trained final.
Proof.
  intros final replies. subst final replies. split; [|reflexivity].
  revert self. induction calls as [|c calls IH]; intros self; simpl.
  - rewrite orb_false_r. reflexivity.
  - pose proof (monitor_handle_flag self c) as E1.
    destruct (monitor_handle self c) as [self1 r]. simpl in E1.
    specialize (IH self1).
    destruct (monitor_serve self1 calls) as [self2 rs]. simpl in *.
    rewrite IH, E1, orb_assoc. reflexivity.
Qed.

Lemma error_count_analyze_request (self : SecurityMonitor) (t : Q)
    (rq : RequestData) (key : string) :
  error_count (fst (analyze_request self t rq)) key
  = if (400 <=? status_of rq)%Z && bool_decide (key = error_key rq)
    then S (error_count self key)
    else error_count self key.
Proof.
  rewrite analyze_request_state. unfold error_count. simpl.
  destruct (400 <=? status_of rq)%Z; simpl; [|reflexivity].
  destruct (bool_decide (key = error_key rq)) eqn:E.
  - apply bool_decide_eq_true in E. subst key.
    rewrite lookup_insert_eq. reflexivity.
  - apply bool_decide_eq_false in E.
    rewrite lookup_insert_ne by congruence. reflexivity.
Qed.

Lemma analyze_each_error_count (self : SecurityMonitor) (times : list Q)
    (rq : RequestData) :
  (400 <= status_of rq)%Z ->
  error_count (analyze_each self times rq) (error_key rq)
  = (error_count self (error_key rq) + length times)%nat.
Proof.
  intros Hs. revert self.
  induction times as [|t times IH]; intros self; simpl; [lia|].
  rewrite IH, error_count_analyze_request.
  apply Z.leb_le in Hs. rewrite Hs, bool_decide_eq_true_2 by reflexivity.
  simpl. lia.
Qed.

(** X10: error counters never expire.  After the same request with a status
    of 400 or more has been analysed at any clock readings whatever, in any
    order, its client and endpoint counter has grown by the number of those
    analyses, and the next such request is reported with a high error rate
    exactly when 10 or more came before it. *)
Theorem errors_never_expire (self : SecurityMonitor) (times : list Q) (t : Q)
    (rq : RequestData) :
  (400 <= status_of rq)%Z ->
  let self' := analyze_each self times rq in
  error_count self' (error_key rq)
  = (error_count self (error_key rq) + length times)%nat /\
  (In (HighErrorRate (client_of rq) (endpoint_of rq))
      (threats (snd (analyze_request self' t rq))) <->
   (10 <= error_count self (error_key rq) + length times)%nat).
Proof.
  intros Hs self'. subst self'.
  rewrite high_error_rate_reported, analyze_each_error_count by exact Hs.
  split; [reflexivity|]. tauto.
Qed.

Lemma string_append_assoc (a b c : string) :
  String.append (String.append a b) c = String.append a (String.append b c).
Proof.
  induction a as [|ch a IH]; [reflexivity|].
  change (String ch (String.append (String.append a b) c)
          = String ch (String.append a (String.append b c))).
  f_equal. exact IH.
Qed.

(** X11: the error counter key is the client, a colon and the endpoint, so
    a client [c:x] with endpoint [e] and a client [c] with endpoint [x:e]
    share one counter: a failed request of the first pair raises the
    counter of the second. *)
Theorem error_counter_shared_by_two_pairs (self : SecurityMonitor) (t : Q)
    (rq1 rq2 : RequestData) (c x : string) :
  client_of rq1 = String.append c (String.append ":" x) ->
  client_of rq2 = c ->
  endpoint_of rq2 = String.append x (String.append ":" (endpoint_of rq1)) ->
  (400 <= status_of rq1)%Z ->
  error_key rq1 = error_key rq2 /\
  error_count (fst (analyze_request self t rq1)) (error_key rq2)
  = S (error_count self (error_key rq2)).
Proof.
  intros E1 E2 E3 Hs.
  assert (Hk : error_key rq1 = error_key rq2).
  { unfold error_key. rewrite E1, E2, E3.
    rewrite string_append_assoc. reflexivity. }
  split; [exact Hk|].
  rewrite error_count_analyze_request.
  apply Z.leb_le in Hs. rewrite Hs, bool_decide_eq_true_2 by congruence.
  reflexivity.
Qed.

End TrainingAndErrors.

(** * Further properties of the rules *)

Section RuleProperties.
Context `{IsolationForestImpl}.

Lemma prefix_iff_append (s1 s2 : string) :
  String.prefix s1 s2 = true <-> exists rest, s2 = String.append s1 rest.
Proof.
  revert s2. induction s1 as [|a s1 IH]; intros s2.
  - split; [intros _; exists s2; reflexivity|].
    intros _. destruct s2; reflexivity.
  - destruct s2 as [|b s2].
    + split; [discriminate | intros [rest Hr]; discriminate Hr].
    + change (String.prefix (String a s1) (String b s2))
        with (if ascii_dec a b then String.prefix s1 s2 else false).
      destruct (ascii_dec a b) as [->|Hne].
      * rewrite IH. split; intros [rest Hr]; exists rest.
        -- rewrite Hr. reflexivity.
        -- injection Hr as ->. reflexivity.
      * split; [discriminate|].
        intros [rest Hr]. injection Hr as Hab _. congruence.
Qed.

Lemma contains_cons (needle : string) (c : ascii) (hay : string) :
  contains needle (String c hay)
  = String.prefix needle (String c hay) || contains needle hay.
Proof. reflexivity. Qed.

Lemma contains_empty (needle : string) :
  contains needle EmptyString = String.prefix needle EmptyString.
Proof. unfold contains. apply orb_false_r. Qed.

(** X12: the substring test of the rules holds exactly when the text can be
    cut into a part before, the fragment, and a part after. *)
Theorem contains_iff_substring (needle hay : string) :
  contains needle hay = true <->
  exists before after,
    hay = String.append before (String.append needle after).
Proof.
  induction hay as [|c hay IH].
  - rewrite contains_empty, prefix_iff_append. split.
    + intros [rest Hr]. exists EmptyString, rest. exact Hr.
    + intros [[|b before] [after Hh]]; [exists after; exact Hh|].
      discriminate Hh.
  - rewrite contains_cons, orb_true_iff, IH, prefix_iff_append. split.
    + intros [[rest Hr]|[before [after Hh]]].
      * exists EmptyString, rest. exact Hr.
      * exists (String c before), after. rewrite Hh. reflexivity.
    + intros [[|b before] [after Hh]].
      * left. exists after. exact Hh.
      * right. injection Hh as -> ->. exists before, after. reflexivity.
Qed.

Lemma contains_middle (needle before after : string) :
  contains needle (String.append before (String.append needle after)) = true.
Proof.
  induction before as [|c before IH].
  - change (contains needle (String.append needle after) = true).
    destruct (String.append needle after) as [|c rest] eqn:E.
    + rewrite contains_empty. apply prefix_iff_append. exists after.
      symmetry. exact E.
    + rewrite contains_cons. apply orb_true_iff. left.
      apply prefix_iff_append. exists after. symmetry. exact E.
  - change (contains needle
              (String c (String.append before (String.append needle after)))
            = true).
    rewrite contains_cons, IH. apply orb_true_r.
Qed.

Lemma lower_append (a b : string) :
  lower (String.append a b) = String.append (lower a) (lower b).
Proof.
  induction a as [|c a IH]; [reflexivity|].
  change (String (ascii_lower c) (lower (String.append a b))
          = String (ascii_lower c) (String.append (lower a) (lower b))).
  f_equal. exact IH.
Qed.

(** What the first-match loop returns: the first element that passes, with
    only failing elements before it. *)
Lemma first_match_spec {A : Type} (p : A -> bool) (xs : list A) (x : A) :
  first_match p xs = Some x <->
  exists before after,
    xs = before ++ x :: after /\ p x = true /\
    Forall (fun y => p y = false) before.
Proof.
  induction xs as [|y xs IH]; simpl.
  - split; [discriminate|].
    intros ([|? ?] & after & Hx & _); discriminate Hx.
  - destruct (p y) eqn:E.
    + split.
      * intros [= ->]. exists [], xs. repeat split; [assumption|constructor].
      * intros ([|z before] & after & Hx & Hp & Hall).
        -- injection Hx as -> _. reflexivity.
        -- injection Hx as -> _. inversion Hall; congruence.
    + rewrite IH. split.
      * intros (before & after & -> & Hp & Hall).
        exists (y :: before), after. repeat split; [assumption|].
        constructor; assumption.
      * intros ([|z before] & after & Hx & Hp & Hall).
        -- injection Hx as -> _. congruence.
        -- injection Hx as -> ->. inversion Hall; subst.
           exists before, after. repeat split; assumption.
Qed.

Lemma first_match_finds {A : Type} (p : A -> bool) (xs : list A) (x : A) :
  In x xs -> p x = true ->
  exists y, first_match p xs = Some y /\ In y xs /\ p y = true.
Proof.
  induction xs as [|z xs IH]; simpl; [contradiction|].
  intros Hin Hp. destruct (p z) eqn:E.
  - exists z. repeat split; [left; reflexivity|exact E].
  - destruct Hin as [->|Hin]; [congruence|].
    destruct (IH Hin Hp) as (y & Hy & Hiny & Hpy).
    exists y. repeat split; [exact Hy|right; exact Hiny|exact Hpy].
Qed.

(** X13: a user agent that holds a denylisted tool name anywhere, in any
    mix of upper and lower case letters, is always reported: the first
    threat of the assessment is a suspicious user agent from the denylist
    and the risk score is at least 0.3. *)
Theorem denylisted_user_agent_is_reported (self : SecurityMonitor) (t : Q)
    (rq : RequestData) (before name after : string) :
  In (lower name) suspicious_user_agents ->
  user_agent_of rq = String.append before (String.append name after) ->
  let a := snd (analyze_request self t rq) in
  (exists tool,
     In tool suspicious_user_agents /\
     hd_error (threats a) = Some (SuspiciousUserAgent tool)) /\
  (0.3 <=? risk_score a)%float = true.
Proof.
  intros Hin Hua a. subst a.
  destruct (first_match_finds
              (fun ua => contains ua (lower (user_agent_of rq)))
              suspicious_user_agents (lower name) Hin) as (tool & Hfm & Htool & _).
  { rewrite Hua, !lower_append. apply contains_middle. }
  rewrite analyze_request_assessment. cbn [threats risk_score].
  unfold heuristic_threats, rule_model, rule_user_agent. rewrite Hfm.
  unfold rule_request_rate, rule_endpoint, rule_method, rule_error_rate.
  destruct (50 <? _)%nat;
  destruct (existsb _ suspicious_endpoints);
  destruct (bool_decide _);
  destruct (_ && _);
  (destruct (is_trained _); [destruct (flagged_by _ _)|]);
  cbn [fmap option_fmap option_map omap list_omap id app option_list
       accumulate map threat_weight fold_left mbind option_bind hd_error];
  (split; [exists tool; split; [exact Htool|reflexivity]
          |vm_compute; reflexivity]).
Qed.

(** X14: the tool the user agent rule reports is the first entry of the
    denylist, in list order, that occurs in the lower-cased user agent;
    entries after it are not looked at. *)
Theorem user_agent_rule_reports_first_entry (rq : RequestData) (th : Threat) :
  rule_user_agent rq = Some th <->
  exists before tool after,
    suspicious_user_agents = before ++ tool :: after /\
    th = SuspiciousUserAgent tool /\
    contains tool (lower (user_agent_of rq)) = true /\
    Forall (fun other => contains other (lower (user_agent_of rq)) = false)
      before.
Proof.
  unfold rule_user_agent. split.
  - destruct (first_match _ _) as [tool|] eqn:E; simpl; [|discriminate].
    intros [= <-]. apply first_match_spec in E.
    destruct E as (before & after & Hl & Hp & Hall).
    exists before, tool, after. repeat split; assumption.
  - intros (before & tool & after & Hl & -> & Hp & Hall).
    assert (E : first_match
                  (fun ua => contains ua (lower (user_agent_of rq)))
                  suspicious_user_agents = Some tool).
    { apply first_match_spec. exists before, after. repeat split; assumption. }
    rewrite E. reflexivity.
Qed.

(** X15: one signal alone never makes a threat and three or more always do:
    an assessment with at most one threat has [is_threat] false, whatever the
    threat (an outlier label of the model included), and one with three or
    more has it true. *)
Theorem threat_needs_two_signals (self : SecurityMonitor) (t : Q)
    (rq : RequestData) :
  let a := snd (analyze_request self t rq) in
  match length (threats a) with
  | 0 | 1 => is_threat a = false
  | 2 => True
  | _ => is_threat a = true
  end.
Proof.
  intros a. subst a. rewrite analyze_request_assessment.
  cbn [threats is_threat].
  unfold heuristic_threats, rule_model, rule_user_agent, rule_request_rate,
    rule_endpoint, rule_method, rule_error_rate.
  destruct (first_match _ suspicious_user_agents);
  destruct (50 <? _)%nat;
  destruct (existsb _ suspicious_endpoints);
  destruct (bool_decide _);
  destruct (_ && _);
  (destruct (is_trained _); [destruct (flagged_by _ _)|]);
  cbn [fmap option_fmap option_map omap list_omap id app option_list
       accumulate map threat_weight fold_left mbind option_bind length];
  first [exact I | vm_compute; reflexivity].
Qed.

End RuleProperties.

(** * Properties of the security routes and the middleware *)

Section RouteProperties.
Context `{IsolationForestImpl}.
Variable str_HTTPException : Z -> string -> string.

(** X16: the route [/security/train] never answers 400.  It answers with
    success, and the number of entries, exactly when the monitor's training
    returned [True], which takes at least 10 entries; every failure, too few
    entries included, comes back as a 500, and with fewer than 10 entries the
    monitor is left as it was. *)
Theorem security_train_route_never_answers_400 (monitor : SecurityMonitor)
    (data : list SecurityRequest) :
  let result := route_train_security_model str_HTTPException monitor data in
  match snd result with
  | Response reply =>
      (10 <= length data)%nat /\
      samples reply = length data /\
      is_trained (fst result) = true
  | HTTPException code _ =>
      code = 500%Z /\
      is_trained (fst result) = is_trained monitor /\
      ((length data < 10)%nat -> fst result = monitor)
  end.
Proof.
  intros result. subst result.
  unfold route_train_security_model, train_security_model.
  rewrite !length_map.
  destruct (length data <? 10)%nat eqn:E;
    [apply Nat.ltb_lt in E | apply Nat.ltb_ge in E]; simpl.
  - repeat split; reflexivity.
  - destruct (forest_fit _ _) as [fitted [u|e]]; simpl.
    + repeat split; first [exact E | reflexivity].
    + repeat split; first [reflexivity | intros Hlt; lia].
Qed.

(** X17: the rows the route [/security/train] builds have the shape of the
    rows scored at analysis time for a request that is alone in its client's
    window and fires none of the rules 1 to 5: same five features in the same
    order, with a request count of 1 and a risk of 0.0. *)
Theorem training_row_matches_quiet_request (monitor : SecurityMonitor) (t : Q)
    (r : SecurityRequest) :
  length (window_after monitor t (request_data_of r)) = 1%nat ->
  heuristic_threats monitor t (request_data_of r) = [] ->
  ml_features monitor t (request_data_of r) = feature_vector (history_of r).
Proof.
  intros Hw Hq. unfold ml_features. rewrite Hw, Hq. reflexivity.
Qed.

Lemma popleft_while_keeps_tail (m h : Q) (l tail : list Q) :
  Qltb h m = false ->
  exists kept, popleft_while m (l ++ h :: tail) = kept ++ h :: tail.
Proof.
  intros Hh. induction l as [|x l IH]; simpl.
  - rewrite Hh. exists []. reflexivity.
  - destruct (Qltb x m); [exact IH|]. exists (x :: l). reflexivity.
Qed.

Lemma middleware_state (monitor : SecurityMonitor) (t1 t2 : Q)
    (request : HttpRequest) (status_code : Z) :
  security_middleware monitor t1 t2 request (answer_with status_code)
  = (fst (analyze_request
            (fst (analyze_request monitor t1 (middleware_request_data request 200)))
            t2 (middleware_request_data request status_code)),
     {| response_status := status_code;
        x_security_risk_score :=
          risk_score (snd (analyze_request
            (fst (analyze_request monitor t1 (middleware_request_data request 200)))
            t2 (middleware_request_data request status_code)));
        x_security_threat :=
          is_threat (snd (analyze_request
            (fst (analyze_request monitor t1 (middleware_request_data request 200)))
            t2 (middleware_request_data request status_code))) |}).
Proof.
  unfold security_middleware, answer_with, middleware_request_data.
  destruct (analyze_request monitor t1 _) as [monitor1 r1]. simpl.
  destruct (analyze_request monitor1 t2 _) as [monitor3 r3]. reflexivity.
Qed.

(** X18: the middleware records every HTTP request twice.  When the rest of
    the application leaves the monitor alone, one request through the
    middleware adds two to the caller's request count and to the total,
    whatever the two clock readings; the caller's window then ends with the
    second reading, and with both readings when the second is within 60
    seconds of the first. *)
Theorem middleware_records_twice (monitor : SecurityMonitor) (t1 t2 now : Q)
    (request : HttpRequest) (status_code : Z) :
  let after :=
    fst (security_middleware monitor t1 t2 request (answer_with status_code)) in
  request_count_of after (client_host request)
  = S (S (request_count_of monitor (client_host request))) /\
  total_requests_tracked (get_security_summary after now)
  = S (S (total_requests_tracked (get_security_summary monitor now))) /\
  (exists kept, window_of after (client_host request) = kept ++ [t2]) /\
  ((t2 - 60 <= t1)%Q ->
   exists kept, window_of after (client_host request) = kept ++ [t1; t2]).
Proof.
  intros after. subst after. rewrite middleware_state. cbn [fst].
  set (rq1 := middleware_request_data request 200).
  set (rq2 := middleware_request_data request status_code).
  change (client_host request) with (client_of rq2).
  split; [|split; [|split]].
  - rewrite !request_count_of_analyze_request.
    change (client_of rq1) with (client_of rq2).
    destruct (decide _) as [_|Hne]; [reflexivity|contradiction].
  - rewrite !analyze_request_state. cbn [get_security_summary
      total_requests_tracked ip_request_counts].
    rewrite !sum_values_bump. reflexivity.
  - rewrite window_of_analyze_request. apply window_after_keeps_now.
  - intros Hle. rewrite window_of_analyze_request. unfold window_after.
    change (client_of rq2) with (client_of rq1).
    rewrite window_of_analyze_request.
    destruct (window_after_keeps_now monitor t1 rq1) as [kept ->].
    rewrite <- app_assoc. simpl.
    apply popleft_while_keeps_tail. apply Qltb_false, Hle.
Qed.

Lemma window_grows_at_same_instant (self : SecurityMonitor) (t : Q)
    (rq : RequestData) (k : nat) :
  window_of self (client_of rq) = replicate k t ->
  window_of (fst (analyze_request self t rq)) (client_of rq)
  = replicate (S k) t.
Proof.
  intros Hw. rewrite window_of_analyze_request. unfold window_after.
  rewrite Hw, <- replicate_S_end. simpl. rewrite now_not_old. reflexivity.
Qed.

Lemma middleware_times_window (n k : nat) (monitor : SecurityMonitor) (t : Q)
    (request : HttpRequest) (status_code : Z) :
  window_of monitor (client_host request) = replicate k t ->
  is_trained (middleware_times n monitor t request status_code)
  = is_trained monitor /\
  window_of (middleware_times n monitor t request status_code)
    (client_host request) = replicate (k + 2 * n) t.
Proof.
  revert k monitor. induction n as [|n IH]; intros k monitor Hw; simpl.
  - rewrite Nat.add_0_r. split; [reflexivity|exact Hw].
  - rewrite middleware_state. cbn [fst].
    set (rq1 := middleware_request_data request 200).
    set (rq2 := middleware_request_data request status_code).
    destruct (IH (S (S k))
                (fst (analyze_request (fst (analyze_request monitor t rq1)) t rq2)))
      as [Et Ew].
    + change (client_host request) with (client_of rq2).
      apply window_grows_at_same_instant.
      change (client_of rq2) with (client_of rq1).
      apply window_grows_at_same_instant. exact Hw.
    + split.
      * rewrite Et, !analyze_request_state. reflexivity.
      * rewrite Ew. f_equal. lia.
Qed.

(** X19: through the middleware the request rate threshold is reached at the
    26th request.  After a client new to a fresh monitor has sent [n]
    requests through the middleware at one instant, its window holds [2n]
    entries; for a request that trips no other rule, the risk score in the
    header of the next response is 0.4 when 25 or more came before it and 0.0
    otherwise. *)
Theorem middleware_flags_from_26th_request (n : nat) (t : Q)
    (request : HttpRequest) (status_code : Z) :
  rule_user_agent (middleware_request_data request status_code) = None ->
  rule_endpoint (middleware_request_data request status_code) = None ->
  rule_method (middleware_request_data request status_code) = None ->
  (status_code < 400)%Z ->
  let monitor :=
    middleware_times n new_SecurityMonitor t request status_code in
  window_of monitor (client_host request) = replicate (2 * n) t /\
  x_security_risk_score
    (snd (security_middleware monitor t t request (answer_with status_code)))
  = (if (25 <=? n)%nat then 0.4 else 0)%float.
Proof.
  intros H1 H3 H4 Hs monitor. subst monitor.
  destruct (middleware_times_window n 0 new_SecurityMonitor t request
              status_code) as [Et Ew].
  { unfold window_of. simpl. rewrite lookup_empty. reflexivity. }
  simpl in Ew. split; [exact Ew|].
  rewrite middleware_state. cbn [snd x_security_risk_score].
  set (rq1 := middleware_request_data request 200) in *.
  set (rq2 := middleware_request_data request status_code) in *.
  set (monitor := middleware_times n new_SecurityMonitor t request status_code) in *.
  assert (Htr : is_trained (fst (analyze_request monitor t rq1)) = false).
  { rewrite analyze_request_state. cbn [is_trained]. rewrite Et. reflexivity. }
  assert (E5 : rule_error_rate
                 (fst (analyze_request monitor t rq1)) rq2 = None).
  { unfold rule_error_rate.
    replace (400 <=? status_of rq2)%Z with false; [reflexivity|].
    symmetry. apply Z.leb_gt. exact Hs. }
  assert (Hw : window_of (fst (analyze_request monitor t rq1)) (client_of rq2)
               = replicate (S (n + (n + 0))) t).
  { change (client_of rq2) with (client_of rq1).
    apply window_grows_at_same_instant. exact Ew. }
  assert (E2 : rule_request_rate (fst (analyze_request monitor t rq1)) t rq2
               = if (25 <=? n)%nat
                 then Some (HighRequestRate (S (S (n + (n + 0)))))
                 else None).
  { unfold rule_request_rate, window_after. rewrite Hw, <- replicate_S_end.
    simpl popleft_while. rewrite now_not_old. cbn [length].
    rewrite length_replicate.
    destruct (25 <=? n)%nat eqn:E;
      [apply Nat.leb_le in E | apply Nat.leb_gt in E].
    - replace (50 <? S (S (n + (n + 0))))%nat with true; [reflexivity|].
      symmetry. apply Nat.ltb_lt. lia.
    - replace (50 <? S (S (n + (n + 0))))%nat with false; [reflexivity|].
      symmetry. apply Nat.ltb_ge. lia. }
  rewrite analyze_request_assessment. cbn [risk_score].
  unfold heuristic_threats, rule_model.
  rewrite Htr, H1, H3, H4, E5, E2.
  destruct (25 <=? n)%nat; vm_compute; reflexivity.
Qed.

End RouteProperties.

(** * Further properties of the metrics detector *)

Section MetricsRunProperties.
Context `{IsolationForestImpl} `{StandardScalerImpl}.

Lemma train_model_counter (g : Service) (data : list MetricsData) :
  anomaly_counter (fst (train_model g data)) = anomaly_counter g.
Proof.
  unfold train_model.
  destruct (fit_transform _ _) as [sc [scaled|e]]; [|reflexivity].
  destruct (isolation_forest g) as [forest|]; [|reflexivity].
  destruct (forest_fit _ _) as [forest' [u|e]]; reflexivity.
Qed.

Lemma handle_counter (g : Service) (c : ServiceCall) :
  anomaly_counter (fst (handle g c))
  = (anomaly_counter g
     + length (List.filter flagged_detection [snd (handle g c)]))%nat.
Proof.
  destruct c as [|data|now x]; simpl.
  - lia.
  - pose proof (train_model_counter g data) as E.
    destruct (train_model g data) as [g' r]. simpl in *. lia.
  - unfold detect_anomaly.
    destruct (negb (is_model_trained g)); simpl; [lia|].
    destruct (transform _ _) as [scaled|]; simpl; [|lia].
    destruct (isolation_forest g) as [forest|]; simpl; [|lia].
    destruct (decision_function _ _) as [score|]; simpl; [|lia].
    destruct (predict _ _) as [label|]; simpl; [|lia].
    destruct (label =? -1)%Z; simpl; lia.
Qed.

(** X20: over any sequence of startup, train and detect calls the counter
    [anomalies_detected_total] grows by the number of detections that
    returned a result with [is_anomaly] true; failed detections and
    trainings never move it. *)
Theorem anomaly_counter_counts_flagged_detections (g : Service)
    (calls : list ServiceCall) :
  anomaly_counter (fst (serve g calls))
  = (anomaly_counter g
     + length (List.filter flagged_detection (snd (serve g calls))))%nat.
Proof.
  revert g. induction calls as [|c calls IH]; intros g; simpl; [lia|].
  pose proof (handle_counter g c) as E1.
  destruct (handle g c) as [g1 r]. simpl in E1.
  specialize (IH g1). destruct (serve g1 calls) as [g2 rs]. simpl in *.
  rewrite IH, E1. destruct (flagged_detection r); simpl; lia.
Qed.

(** X21: [train_model] answers with success exactly when a model object
    exists and both fits succeed; it then stores the scaled batch, sets the
    flag and reports the batch size.  Every failure is a 500 that leaves the
    flag and the stored batch as they were.  In both cases the scaler is the
    object left by the attempt to fit it, so a training that fails after the
    scaler was fitted leaves the new scaler next to the old model. *)
Theorem train_model_outcome (g : Service) (data : list MetricsData) :
  let g' := fst (train_model g data) in
  let scaling := fit_transform (scaler g) (map metric_row data) in
  scaler g' = fst scaling /\
  ((exists reply, snd (train_model g data) = Response reply) <->
   (exists forest scaled u,
      isolation_forest g = Some forest /\
      snd scaling = Ok scaled /\
      snd (forest_fit forest scaled) = Ok u)) /\
  match snd (train_model g data) with
  | Response reply =>
      exists forest scaled u,
        isolation_forest g = Some forest /\
        snd scaling = Ok scaled /\
        snd (forest_fit forest scaled) = Ok u /\
        isolation_forest g' = Some (fst (forest_fit forest scaled)) /\
        samples reply = length data /\
        is_model_trained g' = true /\
        training_data g' = scaled
  | HTTPException code _ =>
      code = 500%Z /\
      is_model_trained g' = is_model_trained g /\
      training_data g' = training_data g
  end.
Proof.
  intros g' scaling. subst g' scaling. unfold train_model.
  destruct (fit_transform _ _) as [sc [scaled|e]]; simpl.
  - destruct (isolation_forest g) as [forest|]; simpl.
    + destruct (forest_fit forest scaled) as [forest' [u|e]] eqn:E; simpl.
      * split; [reflexivity|]. split.
        -- split; [intros _|intros _; eexists; reflexivity].
           exists forest, scaled, u. rewrite E. repeat split.
        -- exists forest, scaled, u. rewrite E. repeat split.
      * split; [reflexivity|]. split; [|repeat split].
        split; [intros [reply Hr]; discriminate Hr|].
        intros (forest0 & scaled0 & u & [= <-] & [= <-] & Hu).
        rewrite E in Hu. discriminate Hu.
    + split; [reflexivity|]. split; [|repeat split].
      split; [intros [reply Hr]; discriminate Hr|].
      intros (forest0 & scaled0 & u & Hf & _). discriminate Hf.
  - split; [reflexivity|]. split; [|repeat split].
    split; [intros [reply Hr]; discriminate Hr|].
    intros (forest0 & scaled0 & u & _ & Hs & _). discriminate Hs.
Qed.

Lemma handle_without_forest (g : Service) (c : ServiceCall) :
  c <> Startup ->
  isolation_forest g = None -> is_model_trained g = false ->
  isolation_forest (fst (handle g c)) = None /\
  is_model_trained (fst (handle g c)) = false /\
  train_succeeded (snd (handle g c)) = false /\
  match snd (handle g c) with
  | Started => False
  | TrainDone r => exists detail, r = HTTPException 500 detail
  | DetectDone r => r = HTTPException 400 "Model not trained yet"
  end.
Proof.
  intros Hc Hf Ht. destruct c as [|data|now x]; [contradiction| |]; simpl.
  - unfold train_model. rewrite Hf.
    destruct (fit_transform _ _) as [sc [scaled|e]]; simpl;
      repeat split; try assumption; eexists; reflexivity.
  - rewrite detect_anomaly_untrained by exact Ht. simpl.
    repeat split; assumption.
Qed.

(** X22: until [startup_event] has run there is no model object: every
    [train_model] call answers 500, every [detect_anomaly] call answers 400,
    and the trained flag stays unset, however many calls are made. *)
Theorem nothing_trains_before_startup (calls : list ServiceCall) :
  Forall (fun c => c <> Startup) calls ->
  let g := fst (serve module_globals calls) in
  let replies := snd (serve module_globals calls) in
  is_model_trained g = false /\
  isolation_forest g = None /\
  Forall (fun r =>
            match r with
            | Started => False
            | TrainDone r => exists detail, r = HTTPException 500 detail
            | DetectDone r => r = HTTPException 400 "Model not trained yet"
            end) replies.
Proof.
  intros Hall g replies. subst g replies.
  assert (Hgen : forall g0,
             isolation_forest g0 = None -> is_model_trained g0 = false ->
             is_model_trained (fst (serve g0 calls)) = false /\
             isolation_forest (fst (serve g0 calls)) = None /\
             Forall (fun r =>
                       match r with
                       | Started => False
                       | TrainDone r => exists detail, r = HTTPException 500 detail
                       | DetectDone r => r = HTTPException 400 "Model not trained yet"
                       end) (snd (serve g0 calls))).
  { induction Hall as [|c calls Hc Hall IH]; intros g0 Hf Ht; simpl.
    - repeat split; [assumption..|constructor].
    - destruct (handle_without_forest g0 c Hc Hf Ht) as (Hf1 & Ht1 & _ & Hr).
      destruct (handle g0 c) as [g1 r]. simpl in *.
      destruct (IH g1 Hf1 Ht1) as (Ht2 & Hf2 & Hrs).
      destruct (serve g1 calls) as [g2 rs]. simpl in *.
      repeat split; [assumption..|]. constructor; assumption. }
  apply Hgen; reflexivity.
Qed.

(** X23: [/health] reports [model_trained] true exactly when some earlier
    [train_model] call of the run has answered with success. *)
Theorem health_reports_successful_training (calls : list ServiceCall) :
  health_model_trained (health (fst (serve module_globals calls)))
  = existsb train_succeeded (snd (serve module_globals calls)).
Proof.
  assert (Hr0 : forest_ready module_globals) by (intros E; discriminate E).
  destruct (serve_flag calls module_globals Hr0) as [_ E].
  simpl in *. exact E.
Qed.

End MetricsRunProperties.

(** ** Runs of the further properties *)

(** Entries at 0, 30 and 50; the request at 100 keeps 50 and adds 100. *)
Lemma recorded_window_is_filtered_at_100 :
  let self := analyze_each new_SecurityMonitor [0; 30; 50]%Q plain_login in
  window_of self "1.2.3.4" = [0; 30; 50]%Q /\
  window_of (fst (analyze_request self 100 plain_login)) (client_of plain_login)
  = List.filter (fun x => negb (Qltb x (100 - 60)%Q))
      (window_of self (client_of plain_login)) ++ [100%Q].
Proof.
  split; [vm_compute; reflexivity|].
  apply (recorded_window_is_filtered _ 50 100 plain_login); [|discriminate].
  apply (served_analyze 30 50); [|discriminate].
  apply (served_analyze 0 30); [|discriminate].
  apply (served_analyze 0 0); [apply served_new|discriminate].
Defined.



(** A request at 0, then a training, a request of another client at 30 and
    a summary, and a summary at 59. *)
Lemma caller_is_active_after_59_seconds :
  let calls := [CallTrain []; CallAnalyze 30 ipv6_failure; CallSummary 40] in
  let later :=
    fst (monitor_serve (fst (analyze_request new_SecurityMonitor 0 plain_login))
           calls) in
  recently_active (59 - 60)%Q (window_of later (client_of plain_login)) = true /\
  (1 <= active_ips (get_security_summary later 59))%nat.
Proof.
  apply (caller_is_active new_SecurityMonitor 0 59 plain_login
           [CallTrain []; CallAnalyze 30 ipv6_failure; CallSummary 40]).
  - repeat constructor. discriminate.
  - reflexivity.
Defined.

(** Ten failed logins spread over three hours, then an eleventh. *)
Lemma errors_never_expire_over_hours :
  let times := [0; 1000; 2000; 3000; 4000; 5000; 6000; 7000; 8000; 9000]%Q in
  let self := analyze_each new_SecurityMonitor times failed_login in
  error_count self (error_key failed_login)
  = (error_count new_SecurityMonitor (error_key failed_login) + length times)%nat /\
  (In (HighErrorRate (client_of failed_login) (endpoint_of failed_login))
      (threats (snd (analyze_request self 10000 failed_login))) <->
   (10 <= error_count new_SecurityMonitor (error_key failed_login)
          + length times)%nat).
Proof.
  apply (errors_never_expire new_SecurityMonitor _ 10000 failed_login).
  discriminate.
Defined.

Lemma error_counter_shared_ipv6 :
  error_key ipv6_failure = error_key colliding_failure /\
  error_count (fst (analyze_request new_SecurityMonitor 0 ipv6_failure))
    (error_key colliding_failure)
  = S (error_count new_SecurityMonitor (error_key colliding_failure)).
Proof.
  apply (error_counter_shared_by_two_pairs new_SecurityMonitor 0
           ipv6_failure colliding_failure "fe80:" "1");
    [reflexivity | reflexivity | reflexivity | discriminate].
Defined.

Lemma mixed_case_sqlmap_is_reported :
  let a := snd (analyze_request new_SecurityMonitor 0 mixed_case_sqlmap) in
  (exists tool,
     In tool suspicious_user_agents /\
     hd_error (threats a) = Some (SuspiciousUserAgent tool)) /\
  (0.3 <=? risk_score a)%float = true.
Proof.
  apply (denylisted_user_agent_is_reported new_SecurityMonitor 0
           mixed_case_sqlmap "Mozilla/5.0 " "SQLMap" "/1.7").
  - vm_compute. left. reflexivity.
  - reflexivity.
Defined.

Lemma training_row_matches_first_login :
  ml_features new_SecurityMonitor 0 (request_data_of login_body)
  = feature_vector (history_of login_body).
Proof.
  apply (training_row_matches_quiet_request new_SecurityMonitor 0 login_body);
    vm_compute; reflexivity.
Defined.

Lemma middleware_records_login_twice :
  let after :=
    fst (security_middleware new_SecurityMonitor 0 (1 # 10) curl_login
           (answer_with 200)) in
  request_count_of after (client_host curl_login)
  = S (S (request_count_of new_SecurityMonitor (client_host curl_login))) /\
  total_requests_tracked (get_security_summary after 1)
  = S (S (total_requests_tracked (get_security_summary new_SecurityMonitor 1))) /\
  exists kept, window_of after (client_host curl_login) = kept ++ [0; 1 # 10]%Q.
Proof.
  destruct (middleware_records_twice new_SecurityMonitor 0 (1 # 10) 1
              curl_login 200) as (Hc & Ht & _ & Hw).
  split; [exact Hc|]. split; [exact Ht|]. apply Hw. discriminate.
Defined.

(** The 26th login through the middleware within one instant. *)
Lemma middleware_flags_26th_login :
  let monitor := middleware_times 25 new_SecurityMonitor 0 curl_login 200 in
  window_of monitor (client_host curl_login) = replicate (2 * 25) 0%Q /\
  x_security_risk_score
    (snd (security_middleware monitor 0 0 curl_login (answer_with 200)))
  = (if (25 <=? 25)%nat then 0.4 else 0)%float.
Proof.
  apply (middleware_flags_from_26th_request 25 0 curl_login 200);
    [vm_compute; reflexivity | vm_compute; reflexivity
    | vm_compute; reflexivity | reflexivity].
Defined.

Lemma nothing_trains_before_startup_two_calls :
  let calls := [Train nine_samples; Detect 0 (metrics_sample 0.5)] in
  let g := fst (serve module_globals calls) in
  let replies := snd (serve module_globals calls) in
  is_model_trained g = false /\
  isolation_forest g = None /\
  Forall (fun r =>
            match r with
            | Started => False
            | TrainDone r => exists detail, r = HTTPException 500 detail
            | DetectDone r => r = HTTPException 400 "Model not trained yet"
            end) replies.
Proof.
  apply (nothing_trains_before_startup
           [Train nine_samples; Detect 0 (metrics_sample 0.5)]).
  repeat constructor; discriminate.
Defined.

Section OtherClients.
Context `{IsolationForestImpl}.

(** X24: [analyze_request] touches the caller's window and request count
    only: the window of every other client is left as it is, entries older
    than a minute included, and so is its count. *)
Theorem other_clients_untouched (self : SecurityMonitor) (t : Q)
    (rq : RequestData) (client : string) :
  client <> client_of rq ->
  window_of (fst (analyze_request self t rq)) client = window_of self client /\
  ip_request_times (fst (analyze_request self t rq)) !! client
  = ip_request_times self !! client /\
  request_count_of (fst (analyze_request self t rq)) client
  = request_count_of self client.
Proof.
  intros Hne. rewrite request_count_of_analyze_request.
  destruct (decide (client = client_of rq)) as [E|_]; [contradiction|].
  rewrite analyze_request_state. unfold window_of. simpl.
  rewrite lookup_insert_ne by congruence. repeat split.
Qed.

End OtherClients.

(** A client seen at 0 keeps its entry when another client calls at 1000. *)
Lemma other_clients_untouched_after_1000_seconds :
  let self := fst (analyze_request new_SecurityMonitor 0 plain_login) in
  let later := fst (analyze_request self 1000 ipv6_failure) in
  window_of later "1.2.3.4" = window_of self "1.2.3.4" /\
  ip_request_times later !! "1.2.3.4" = ip_request_times self !! "1.2.3.4" /\
  request_count_of later "1.2.3.4" = request_count_of self "1.2.3.4".
Proof.
  apply (other_clients_untouched
           (fst (analyze_request new_SecurityMonitor 0 plain_login)) 1000
           ipv6_failure "1.2.3.4").
  discriminate.
Defined.


Example detect_after_refused_retraining :
  let g := fst (serve module_globals [Startup; Train nine_samples; Train []]) in
  is_model_trained g = true /\
  snd (detect_anomaly g 0 (metrics_sample 0.5))
  = HTTPException 500
      "Detection failed: This StandardScaler instance is not fitted yet".
Proof. split; reflexivity. Qed.

Example detect_right_after_training :
  let g := fst (serve module_globals [Startup; Train nine_samples]) in
  snd (detect_anomaly g 7 (metrics_sample 0.5))
  = Response {| is_anomaly := false;
                anomaly_score := 0.1;
                metrics := [("cpu_usage", 0.5); ("memory_usage", 0.5);
                            ("response_time", 0.2); ("request_count", 100);
                            ("error_rate", 0.01)]%float;
                ar_timestamp := 7 |}.
Proof. vm_compute. reflexivity. Qed.
